(** * custom_whisper.py: a shallow embedding and its verified properties

    The script has three functions: [create_datetime_directory] (the Path
    Builder), [transcribe_audio] (the Transcription Invoker) and [main]
    (argument parsing, the existence check on the audio file, the exit
    code).  They are embedded below as functions in a state-and-exception
    monad over a [World] made of a POSIX file tree, the lines printed on
    standard output and the log of calls made to the transcription engine.

    The engine ([whisper.load_model], [model.transcribe]) is a black box:
    it is a pair of Section variables.  The clock reading of
    [datetime.now()] is an explicit argument.  Library functions of Python
    the script calls ([os.path.join], [os.makedirs], [open]/[write],
    [argparse]) are modelled for a POSIX system. *)

From Stdlib Require Import ZArith String Ascii List Lia Bool.
From Stdlib Require Import DecimalString.
From stdpp Require Import base gmap strings list fin_maps.

Local Open Scope string_scope.
Local Open Scope Z_scope.

(** ** Strings *)

Module PyStr.

(** [s.startswith(c)] and [s.endswith(c)] for a one-character [c]. *)
Definition startswith_char (c : ascii) (s : string) : bool :=
  match s with
  | String a _ => Ascii.eqb a c
  | EmptyString => false
  end.

Fixpoint endswith_char (c : ascii) (s : string) : bool :=
  match s with
  | EmptyString => false
  | String a EmptyString => Ascii.eqb a c
  | String _ rest => endswith_char c rest
  end.

(** [str(n)] for a non-negative integer: its decimal digits. *)
Definition decimal (n : N) : string :=
  NilZero.string_of_uint (N.to_uint n).

(** [format(n, "0Wd")]: decimal digits, a leading minus sign for a negative
    number, and zeros between the sign and the digits up to the minimum
    width [W]. *)
Fixpoint zeros (k : nat) : string :=
  match k with
  | O => ""
  | S k' => String "0" (zeros k')
  end.

Definition format_0d (width : nat) (n : Z) : string :=
  let sign := if n <? 0 then "-" else "" in
  let digits := decimal (Z.abs_N n) in
  sign +:+ zeros (width - String.length sign - String.length digits)%nat +:+ digits.

(** [s.split(sep)] for a one-character separator. *)
Fixpoint split_char (sep : ascii) (s : string) : list string :=
  match s with
  | EmptyString => [EmptyString]
  | String a rest =>
      if Ascii.eqb a sep then EmptyString :: split_char sep rest
      else match split_char sep rest with
           | first :: others => String a first :: others
           | [] => [String a EmptyString]
           end
  end.

(** The ASCII decimal digits, and the strings made only of them. *)
Definition is_digit (a : ascii) : bool :=
  (48 <=? nat_of_ascii a)%nat && (nat_of_ascii a <=? 57)%nat.

Fixpoint all_digits (s : string) : bool :=
  match s with
  | EmptyString => true
  | String a rest => is_digit a && all_digits rest
  end.

(** [not s] for a string: only the empty string is falsy. *)
Definition falsy (s : string) : bool :=
  match s with
  | EmptyString => true
  | String _ _ => false
  end.

End PyStr.

(** ** POSIX path names: [os.path.join] *)

Module PosixPath.

Definition sep : string := "/".

(** One round of the loop of [posixpath.join]: a component that starts
    with a slash replaces what was joined so far; after an empty path or a
    path that already ends with a slash no separator is added. *)
Definition join2 (path b : string) : string :=
  if PyStr.startswith_char "/" b then b
  else if PyStr.falsy path || PyStr.endswith_char "/" path then path +:+ b
  else path +:+ sep +:+ b.

Definition join (a : string) (p : list string) : string :=
  fold_left join2 p a.

End PosixPath.

(** ** Timestamps: the fields of a [datetime] object *)

Record datetime := mk_datetime {
  year : Z;
  month : Z;
  day : Z;
  hour : Z;
  minute : Z;
  second : Z;
  microsecond : Z
}.

Definition is_leap (y : Z) : bool :=
  (y mod 4 =? 0) && (negb (y mod 100 =? 0) || (y mod 400 =? 0)).

Definition days_in_month (y m : Z) : Z :=
  if m =? 2 then (if is_leap y then 29 else 28)
  else if (m =? 4) || (m =? 6) || (m =? 9) || (m =? 11) then 30
  else 31.

(** The invariant every [datetime] object satisfies (its constructor raises
    [ValueError] otherwise). *)
Definition datetime_ok (t : datetime) : bool :=
  (1 <=? year t) && (year t <=? 9999) &&
  (1 <=? month t) && (month t <=? 12) &&
  (1 <=? day t) && (day t <=? days_in_month (year t) (month t)) &&
  (0 <=? hour t) && (hour t <=? 23) &&
  (0 <=? minute t) && (minute t <=? 59) &&
  (0 <=? second t) && (second t <=? 59) &&
  (0 <=? microsecond t) && (microsecond t <=? 999999).

(** Names for the strings the Path Builder computes from the clock reading
    [now] (lines 12, 13, 16 and 20 of the script). *)
Definition year_month (now : datetime) : string :=
  PyStr.format_0d 2 (year now mod 100) +:+ "/" +:+ PyStr.format_0d 2 (month now).

Definition day_hour (now : datetime) : string :=
  PyStr.format_0d 2 (day now) +:+ PyStr.format_0d 2 (hour now).

Definition dir_path (base_dir : string) (now : datetime) : string :=
  PosixPath.join base_dir [year_month now; day_hour now].

Definition minute_second (now : datetime) : string :=
  PyStr.format_0d 2 (minute now) +:+ PyStr.format_0d 2 (second now).

(** ** Exceptions and outcomes *)

(** The part of Python's exception hierarchy the script depends on: the
    handler of [transcribe_audio] names [Exception], so it matters whether a
    raised object is an instance of [Exception] or one of the exceptions that
    derive from [BaseException] only. *)
Inductive PyExc :=
| Exception_ (cls : string) (msg : string)
| KeyboardInterrupt
| SystemExit (code : Z).

Definition is_Exception (e : PyExc) : bool :=
  match e with
  | Exception_ _ _ => true
  | KeyboardInterrupt | SystemExit _ => false
  end.

(** [str(e)] *)
Definition exc_str (e : PyExc) : string :=
  match e with
  | Exception_ _ msg => msg
  | KeyboardInterrupt => ""
  | SystemExit code => PyStr.format_0d 0 code
  end.

Inductive Outcome (A : Type) :=
| Ret (a : A)
| Raise (e : PyExc).
Arguments Ret {A} a.
Arguments Raise {A} e.

(** ** The world: file tree, console, engine log *)

Inductive Node :=
| Dir
| File (content : string).

Inductive EngineCall :=
| CallLoadModel (name : string)
| CallTranscribe (audio : string) (options : gmap string string).

(** The file tree maps the absolute location of a node (the names from the
    root down) to the node; the root itself is always a directory. *)
Record World := mk_World {
  fs : gmap (list string) Node;
  cwd : list string;
  console : list string;
  engine_log : list EngineCall
}.

Definition set_fs (t : gmap (list string) Node) (w : World) : World :=
  {| fs := t; cwd := cwd w; console := console w; engine_log := engine_log w |}.

Definition M (A : Type) : Type := World -> Outcome A * World.

Definition ret {A} (a : A) : M A := fun w => (Ret a, w).

Definition raise {A} (e : PyExc) : M A := fun w => (Raise e, w).

(** Sequencing: the effects of a statement that raised stay in the world. *)
Definition bind {A B} (c : M A) (k : A -> M B) : M B :=
  fun w => match c w with
           | (Ret a, w') => k a w'
           | (Raise e, w') => (Raise e, w')
           end.

(** [try: body / except Exception as e: handler(e)] *)
Definition try_except_Exception {A} (body : M A) (handler : PyExc -> M A) : M A :=
  fun w => match body w with
           | (Ret a, w') => (Ret a, w')
           | (Raise e, w') => if is_Exception e then handler e w' else (Raise e, w')
           end.

Declare Scope py_scope.
Delimit Scope py_scope with py.
Notation "'let!' x ':=' c1 'in' c2" := (bind c1 (fun x => c2))
  (at level 10, x pattern, c1 at level 100, c2 at level 200) : py_scope.
Notation "c1 ;; c2" := (bind c1 (fun _ => c2))
  (at level 100, c2 at level 200, right associativity) : py_scope.

(** [print(line)] *)
Definition print (line : string) : M unit :=
  fun w => (Ret tt, {| fs := fs w; cwd := cwd w;
                       console := (console w ++ [line])%list;
                       engine_log := engine_log w |}).

(** [sys.exit(code)] *)
Definition sys_exit {A} (code : Z) : M A := raise (SystemExit code).

(** ** The operating system *)

Inductive Errno := ENOENT | EEXIST | ENOTDIR | EISDIR | EACCES | EROFS | ENOSPC | EIO.

(** The subclass of [OSError] CPython raises for an error number. *)
Definition errno_class (e : Errno) : string :=
  match e with
  | ENOENT => "FileNotFoundError"
  | EEXIST => "FileExistsError"
  | ENOTDIR => "NotADirectoryError"
  | EISDIR => "IsADirectoryError"
  | EACCES => "PermissionError"
  | EROFS | ENOSPC | EIO => "OSError"
  end.

(** What the file tree does not decide is left to the platform: whether it
    refuses to create a directory or to open or write a file (permissions,
    quotas, a read-only or full device), how much of the data reached the
    file when a write fails, and the text of an [OSError] (CPython makes
    it from the error number and the name of the file the failing system
    call was given, which the world and the name given to the library call
    determine). *)
Class Platform := {
  mkdir_fault : list string -> option Errno;
  open_fault : list string -> option Errno;
  write_fault : list string -> string -> option (Errno * nat);
  os_error_text : Errno -> string -> World -> string
}.

Definition os_error `{Platform} (e : Errno) (name : string) (w : World) : PyExc :=
  Exception_ (errno_class e) (os_error_text e name w).

Module Posix.

Definition node_at (t : gmap (list string) Node) (p : list string) : option Node :=
  match p with
  | [] => Some Dir
  | _ :: _ => t !! p
  end.

Definition components (name : string) : list string :=
  PyStr.split_char "/" name.

Definition start (w : World) (name : string) : list string :=
  if PyStr.startswith_char "/" name then [] else cwd w.

Definition is_special (c : string) : bool :=
  String.eqb c "" || String.eqb c "." || String.eqb c "..".

(** One component further from the directory [cur]. *)
Definition step (cur : list string) (c : string) : list string :=
  if String.eqb c "" || String.eqb c "." then cur
  else if String.eqb c ".." then removelast cur
  else (cur ++ [c])%list.

(** Path resolution: every component is looked up in a directory. *)
Fixpoint walk (t : gmap (list string) Node) (cur : list string)
    (comps : list string) : Errno + list string :=
  match comps with
  | [] => inr cur
  | c :: rest =>
      match node_at t cur with
      | Some Dir => walk t (step cur c) rest
      | Some (File _) => inl ENOTDIR
      | None => inl ENOENT
      end
  end.

Definition stat (w : World) (name : string) : Errno + Node :=
  if PyStr.falsy name then inl ENOENT
  else match walk (fs w) (start w name) (components name) with
       | inl e => inl e
       | inr p => match node_at (fs w) p with
                  | Some n => inr n
                  | None => inl ENOENT
                  end
       end.

(** Creation of a directory and of its missing ancestors, one component
    at a time; the directories made before a failure stay. *)
Fixpoint mkdir_p `{Platform} (t : gmap (list string) Node) (cur : list string)
    (comps : list string) : option Errno * gmap (list string) Node :=
  match node_at t cur with
  | Some Dir =>
      match comps with
      | [] => (None, t)
      | c :: rest =>
          if is_special c then mkdir_p t (step cur c) rest
          else match node_at t (cur ++ [c])%list with
               | Some _ => mkdir_p t (cur ++ [c])%list rest
               | None =>
                   match mkdir_fault (cur ++ [c])%list with
                   | Some e => (Some e, t)
                   | None => mkdir_p (<[(cur ++ [c])%list := Dir]> t) (cur ++ [c])%list rest
                   end
               end
      end
  | Some (File _) => (Some (match comps with [] => EEXIST | _ :: _ => ENOTDIR end), t)
  | None => (Some ENOENT, t)
  end.

End Posix.

(** [os.path.exists(name)] and [os.path.isdir(name)]: a failing [stat]
    means no. *)
Definition os_path_exists (name : string) : M bool :=
  fun w => (Ret (match Posix.stat w name with inr _ => true | inl _ => false end), w).

Definition isdir (w : World) (name : string) : bool :=
  match Posix.stat w name with
  | inr Dir => true
  | _ => false
  end.

(** The text of the file called [name], when there is one. *)
Definition read_file (w : World) (name : string) : option string :=
  match Posix.stat w name with
  | inr (File content) => Some content
  | _ => None
  end.

(** [os.makedirs(name, exist_ok=exist_ok)] *)
Definition os_makedirs `{Platform} (name : string) (exist_ok : bool) : M unit :=
  fun w =>
    if PyStr.falsy name then (Raise (os_error ENOENT name w), w)
    else if negb exist_ok && match Posix.stat w name with inr _ => true | inl _ => false end
    then (Raise (os_error EEXIST name w), w)
    else match Posix.mkdir_p (fs w) (Posix.start w name) (Posix.components name) with
         | (Some e, t) => (Raise (os_error e name w), set_fs t w)
         | (None, t) => (Ret tt, set_fs t w)
         end.

(** [with open(name, "w", encoding="utf-8") as f: f.write(data)]: the file
    is created or truncated, then filled. *)
Definition write_text_file `{Platform} (name data : string) : M unit :=
  fun w =>
    if PyStr.falsy name then (Raise (os_error ENOENT name w), w)
    else match Posix.walk (fs w) (Posix.start w name) (Posix.components name) with
         | inl e => (Raise (os_error e name w), w)
         | inr p =>
             match Posix.node_at (fs w) p with
             | Some Dir => (Raise (os_error EISDIR name w), w)
             | _ =>
                 match Posix.node_at (fs w) (removelast p) with
                 | Some Dir =>
                     match open_fault p with
                     | Some e => (Raise (os_error e name w), w)
                     | None =>
                         match write_fault p data with
                         | Some (e, n) =>
                             (Raise (os_error e name w),
                              set_fs (<[p := File (String.substring 0 n data)]> (fs w)) w)
                         | None => (Ret tt, set_fs (<[p := File data]> (fs w)) w)
                         end
                     end
                 | Some (File _) => (Raise (os_error ENOTDIR name w), w)
                 | None => (Raise (os_error ENOENT name w), w)
                 end
             end
         end.

(** ** The transcription engine *)

(** What [model.transcribe] returns: a dictionary with the key ["text"]
    (the other keys are not read by the script). *)
Record TranscribeResult := mk_result { text : string }.

(** The engine is a black box with two entry points.  It reads the world
    (the audio file, its model cache) and either returns or raises; it does
    not change the file tree under the output directory nor print on the
    console of the script. *)
Class Whisper := {
  Model : Type;
  whisper_load_model : string -> World -> Outcome Model;
  model_transcribe : Model -> string -> gmap string string -> World ->
                     Outcome TranscribeResult
}.

Definition log_call (c : EngineCall) (w : World) : World :=
  {| fs := fs w; cwd := cwd w; console := console w;
     engine_log := (engine_log w ++ [c])%list |}.

(** [whisper.load_model(name)] *)
Definition load_model `{Whisper} (name : string) : M Model :=
  fun w => (whisper_load_model name w, log_call (CallLoadModel name) w).

(** [model.transcribe(audio, **options)] *)
Definition transcribe `{Whisper} (model : Model) (audio : string)
    (options : gmap string string) : M TranscribeResult :=
  fun w => (model_transcribe model audio options w,
            log_call (CallTranscribe audio options) w).

(** ** The script *)

(** Truth value of an argument that is [None] or a string. *)
Definition truthy (v : option string) : bool :=
  match v with
  | Some s => negb (PyStr.falsy s)
  | None => false
  end.

(** Lines 34 to 38: the keyword arguments of [model.transcribe]. *)
Definition build_options (language task : option string) : gmap string string :=
  let transcribe_options := ∅ in
  let transcribe_options :=
    match language with
    | Some l => if truthy language then <["language" := l]> transcribe_options
                else transcribe_options
    | None => transcribe_options
    end in
  let transcribe_options :=
    match task with
    | Some t => if truthy task then <["task" := t]> transcribe_options
                else transcribe_options
    | None => transcribe_options
    end in
  transcribe_options.

Section Script.
Context `{Platform} `{Whisper}.
Local Open Scope py_scope.

Definition create_datetime_directory (now : datetime) (base_dir : string)
  : M (string * string) :=
  let year_month :=
    PyStr.format_0d 2 (year now mod 100) +:+ "/" +:+ PyStr.format_0d 2 (month now) in
  let day_hour := PyStr.format_0d 2 (day now) +:+ PyStr.format_0d 2 (hour now) in
  let dir_path := PosixPath.join base_dir [year_month; day_hour] in
  os_makedirs dir_path true ;;
  ret (dir_path, PyStr.format_0d 2 (minute now) +:+ PyStr.format_0d 2 (second now)).

(** The body of the [try] statement of [transcribe_audio]. *)
Definition transcribe_audio_body (now : datetime) (audio_path model_name
    output_base_dir : string) (language task : option string) : M (option string) :=
  let! (output_dir, time_suffix) := create_datetime_directory now output_base_dir in
  print ("Loading model: " +:+ model_name) ;;
  let! model := load_model model_name in
  print ("Transcribing: " +:+ audio_path) ;;
  let transcribe_options := build_options language task in
  let! result := transcribe model audio_path transcribe_options in
  let output_file := PosixPath.join output_dir [time_suffix +:+ ".txt"] in
  write_text_file output_file (text result) ;;
  print ("Transcription saved to: " +:+ output_file) ;;
  ret (Some output_file).

Definition transcribe_audio (now : datetime) (audio_path model_name
    output_base_dir : string) (language task : option string) : M (option string) :=
  try_except_Exception
    (transcribe_audio_body now audio_path model_name output_base_dir language task)
    (fun e => print ("Error transcribing audio: " +:+ exc_str e) ;; ret None).

End Script.

(** ** The command line: [argparse] as configured by lines 54 to 60

    The model follows [ArgumentParser.parse_args] of CPython 3.11 for a
    parser with the prefix character [-], abbreviations allowed, one
    positional argument and the options below.  Strings are byte strings; the
    digits of the negative-number test are the ASCII digits.  The usage and
    help texts that [argparse] itself prints are not modelled, only the exit
    it takes. *)

Module Argparse.

Inductive Dest := DestHelp | DestModel | DestOutput | DestLanguage | DestTask.

Definition option_strings : list (string * Dest) :=
  [("-h", DestHelp); ("--help", DestHelp); ("--model", DestModel);
   ("--output", DestOutput); ("--language", DestLanguage); ("--task", DestTask)].

(** [choices=["transcribe", "translate"]] of [--task] *)
Definition task_choices : list string := ["transcribe"; "translate"].

Record Namespace := mk_Namespace {
  audio : string;
  model : string;
  output : string;
  language : option string;
  task : string
}.

(** The namespace under construction; it starts from the declared
    defaults.  [extras] records arguments nothing accepted. *)
Record State := mk_State {
  st_audio : option string;
  st_model : string;
  st_output : string;
  st_language : option string;
  st_task : string;
  st_extras : bool
}.

Definition defaults : State :=
  {| st_audio := None; st_model := "tiny"; st_output := "output";
     st_language := None; st_task := "transcribe"; st_extras := false |}.

Inductive Token :=
| Positional
| Optional (option_string : string) (dest : Dest) (explicit_arg : option string)
| Unknown
| Ambiguous.

Definition lookup_option (s : string) : option Dest :=
  match List.find (fun p => String.eqb (fst p) s) option_strings with
  | Some p => Some (snd p)
  | None => None
  end.

(** [s.split(c, 1)] when [c] occurs in [s]. *)
Fixpoint split_first (c : ascii) (s : string) : option (string * string) :=
  match s with
  | EmptyString => None
  | String a rest =>
      if Ascii.eqb a c then Some (EmptyString, rest)
      else match split_first c rest with
           | Some (l, r) => Some (String a l, r)
           | None => None
           end
  end.

Fixpoint chomp_newline (s : string) : string :=
  match s with
  | EmptyString => EmptyString
  | String a EmptyString => if Ascii.eqb a "010" then EmptyString else s
  | String a rest => String a (chomp_newline rest)
  end.

(** The regular expression [^-\d+$|^-\d*\.\d+$] ([$] also matches before
    a final newline). *)
Definition negative_number (t : string) : bool :=
  match chomp_newline t with
  | String "-" r =>
      (negb (PyStr.falsy r) && PyStr.all_digits r)
      || match split_first "." r with
         | Some (a, b) => PyStr.all_digits a && negb (PyStr.falsy b) && PyStr.all_digits b
         | None => false
         end
  | _ => false
  end.

Fixpoint has_space (s : string) : bool :=
  match s with
  | EmptyString => false
  | String a rest => Ascii.eqb a " " || has_space rest
  end.

(** [_get_option_tuples]: the options a string abbreviates. *)
Definition get_option_tuples (t : string) : list Token :=
  match t with
  | String _ (String "-" _) =>
      let '(option_prefix, explicit_arg) :=
        match split_first "=" t with
        | Some (p, e) => (p, Some e)
        | None => (t, None)
        end in
      List.map (fun p => Optional (fst p) (snd p) explicit_arg)
        (List.filter (fun p => String.prefix option_prefix (fst p)) option_strings)
  | String _ (String _ _) =>
      let short_option_prefix := String.substring 0 2 t in
      let short_explicit_arg := String.substring 2 (String.length t - 2) t in
      List.flat_map
        (fun p => if String.eqb (fst p) short_option_prefix
                  then [Optional (fst p) (snd p) (Some short_explicit_arg)]
                  else if String.prefix t (fst p)
                  then [Optional (fst p) (snd p) None]
                  else [])
        option_strings
  | _ => []
  end.

(** [_parse_optional]: is the string an option or an argument? *)
Definition parse_optional (t : string) : Token :=
  if negb (PyStr.startswith_char "-" t) then Positional
  else match lookup_option t with
       | Some d => Optional t d None
       | None =>
           if (String.length t =? 1)%nat then Positional
           else
             let by_equals :=
               match split_first "=" t with
               | Some (o, e) =>
                   match lookup_option o with
                   | Some d => Some (Optional o d (Some e))
                   | None => None
                   end
               | None => None
               end in
             match by_equals with
             | Some tok => tok
             | None =>
                 match get_option_tuples t with
                 | _ :: _ :: _ => Ambiguous
                 | [tok] => tok
                 | [] => if negative_number t then Positional
                         else if has_space t then Positional
                         else Unknown
                 end
             end
       end.

Definition add_positional (t : string) (st : State) : State :=
  match st_audio st with
  | None => {| st_audio := Some t; st_model := st_model st; st_output := st_output st;
               st_language := st_language st; st_task := st_task st;
               st_extras := st_extras st |}
  | Some _ => {| st_audio := st_audio st; st_model := st_model st;
                 st_output := st_output st; st_language := st_language st;
                 st_task := st_task st; st_extras := true |}
  end.

Definition add_extra (st : State) : State :=
  {| st_audio := st_audio st; st_model := st_model st; st_output := st_output st;
     st_language := st_language st; st_task := st_task st; st_extras := true |}.

(** The store action of an option, after the [choices] check. *)
Definition store (d : Dest) (v : string) (st : State) : option State :=
  match d with
  | DestHelp => None
  | DestModel =>
      Some {| st_audio := st_audio st; st_model := v; st_output := st_output st;
              st_language := st_language st; st_task := st_task st;
              st_extras := st_extras st |}
  | DestOutput =>
      Some {| st_audio := st_audio st; st_model := st_model st; st_output := v;
              st_language := st_language st; st_task := st_task st;
              st_extras := st_extras st |}
  | DestLanguage =>
      Some {| st_audio := st_audio st; st_model := st_model st;
              st_output := st_output st; st_language := Some v;
              st_task := st_task st; st_extras := st_extras st |}
  | DestTask =>
      if List.existsb (String.eqb v) task_choices
      then Some {| st_audio := st_audio st; st_model := st_model st;
                   st_output := st_output st; st_language := st_language st;
                   st_task := v; st_extras := st_extras st |}
      else None
  end.

Inductive Result :=
| Parsed (args : Namespace)
| ExitUsage
| ExitHelp.

(** The end of the command line: a missing [audio] and unrecognised
    arguments are usage errors. *)
Definition finish (st : State) : Result :=
  match st_audio st with
  | None => ExitUsage
  | Some a =>
      if st_extras st then ExitUsage
      else Parsed {| audio := a; model := st_model st; output := st_output st;
                     language := st_language st; task := st_task st |}
  end.

(** [-h] may be followed by more [h] flags in the same argument. *)
Fixpoint only_h (s : string) : bool :=
  match s with
  | EmptyString => true
  | String a rest => Ascii.eqb a "h" && only_h rest
  end.

Definition is_short (option_string : string) : bool :=
  match option_string with
  | String _ (String "-" _) => false
  | _ => true
  end.

Fixpoint parse_from (positional_only : bool) (st : State) (tokens : list string)
  : Result :=
  match tokens with
  | [] => finish st
  | t :: rest =>
      if positional_only then parse_from true (add_positional t st) rest
      else if String.eqb t "--" then parse_from true st rest
      else
        match parse_optional t with
        | Positional => parse_from false (add_positional t st) rest
        | Unknown => parse_from false (add_extra st) rest
        | Ambiguous => ExitUsage
        | Optional _ DestHelp None => ExitHelp
        | Optional o DestHelp (Some e) =>
            if is_short o && only_h e then ExitHelp else ExitUsage
        | Optional _ d (Some v) =>
            match store d v st with
            | Some st' => parse_from false st' rest
            | None => ExitUsage
            end
        | Optional _ d None =>
            match rest with
            | [] => ExitUsage
            | v :: rest' =>
                if String.eqb v "--" then
                  match rest' with
                  | [] => ExitUsage
                  | v' :: rest'' =>
                      match store d v' st with
                      | Some st' => parse_from true st' rest''
                      | None => ExitUsage
                      end
                  end
                else
                  match parse_optional v with
                  | Positional =>
                      match store d v st with
                      | Some st' => parse_from false st' rest'
                      | None => ExitUsage
                      end
                  | _ => ExitUsage
                  end
            end
        end
  end.

(** The strings before the first [--] are classified before any action
    runs, so an ambiguous abbreviation is reported first. *)
Fixpoint ambiguous_before_dashes (tokens : list string) : bool :=
  match tokens with
  | [] => false
  | t :: rest =>
      if String.eqb t "--" then false
      else match parse_optional t with
           | Ambiguous => true
           | _ => ambiguous_before_dashes rest
           end
  end.

Definition parse (argv : list string) : Result :=
  if ambiguous_before_dashes argv then ExitUsage
  else parse_from false defaults argv.

End Argparse.

(** [parser.parse_args()]: a usage error exits with status 2, a request for
    help with status 0. *)
Definition parse_args (argv : list string) : M Argparse.Namespace :=
  match Argparse.parse argv with
  | Argparse.Parsed args => ret args
  | Argparse.ExitUsage => sys_exit 2
  | Argparse.ExitHelp => sys_exit 0
  end.

Section Main.
Context `{Platform} `{Whisper}.
Local Open Scope py_scope.

(** [argv] is [sys.argv[1:]]; [now] is what [datetime.now()] reads when
    the Path Builder runs. *)
Definition main (argv : list string) (now : datetime) : M unit :=
  let! args := parse_args argv in
  let! audio_exists := os_path_exists (Argparse.audio args) in
  (if negb audio_exists then
     print ("Error: Audio file " +:+ Argparse.audio args +:+ " does not exist") ;;
     sys_exit 1
   else ret tt) ;;
  let! output_file :=
    transcribe_audio now (Argparse.audio args) (Argparse.model args)
      (Argparse.output args) (Argparse.language args)
      (Some (Argparse.task args)) in
  if negb (truthy output_file) then sys_exit 1 else ret tt.

End Main.

(** The exit status of the process for an outcome of [main]: 0 when it
    returns, the code of a [SystemExit], 1 for an uncaught exception, and
    the status of a process ended by an interrupt. *)
Definition exit_status (o : Outcome unit) : Z :=
  match o with
  | Ret _ => 0
  | Raise (SystemExit code) => code
  | Raise (Exception_ _ _) => 1
  | Raise KeyboardInterrupt => 130
  end.

(** ** Concrete platforms, engines and worlds

    They are used to run the script on examples. *)

Definition errno_text (e : Errno) : string :=
  match e with
  | ENOENT => "[Errno 2] No such file or directory"
  | EEXIST => "[Errno 17] File exists"
  | ENOTDIR => "[Errno 20] Not a directory"
  | EISDIR => "[Errno 21] Is a directory"
  | EACCES => "[Errno 13] Permission denied"
  | EROFS => "[Errno 30] Read-only file system"
  | ENOSPC => "[Errno 28] No space left on device"
  | EIO => "[Errno 5] Input/output error"
  end.

(** A platform that refuses nothing. *)
Definition permissive : Platform :=
  {| mkdir_fault := fun _ => None;
     open_fault := fun _ => None;
     write_fault := fun _ _ => None;
     os_error_text := fun e _ _ => errno_text e |}.

(** A platform whose device is full: a write fails after [n] characters. *)
Definition full_device (n : nat) : Platform :=
  {| mkdir_fault := fun _ => None;
     open_fault := fun _ => None;
     write_fault := fun _ _ => Some (ENOSPC, n);
     os_error_text := fun e _ _ => errno_text e |}.

(** An engine that loads any model and returns a fixed transcript. *)
Definition fixed_engine (transcript : string) : Whisper :=
  {| Model := string;
     whisper_load_model := fun name _ => Ret name;
     model_transcribe := fun _ _ _ _ => Ret {| text := transcript |} |}.

(** An engine that knows no model. *)
Definition no_model_engine : Whisper :=
  {| Model := string;
     whisper_load_model := fun name _ =>
       Raise (Exception_ "RuntimeError" ("Model " +:+ name +:+ " not found"));
     model_transcribe := fun _ _ _ _ => Ret {| text := "" |} |}.

(** An engine that cannot decode the audio. *)
Definition no_decode_engine : Whisper :=
  {| Model := string;
     whisper_load_model := fun name _ => Ret name;
     model_transcribe := fun _ audio _ _ =>
       Raise (Exception_ "RuntimeError" ("Failed to load audio: " +:+ audio)) |}.

(** An engine whose transcription is interrupted from the keyboard. *)
Definition interrupted_engine : Whisper :=
  {| Model := string;
     whisper_load_model := fun name _ => Ret name;
     model_transcribe := fun _ _ _ _ => Raise KeyboardInterrupt |}.

(** A working directory [/work] that holds [sample.wav]. *)
Definition sample_world : World :=
  {| fs := <[ ["work"; "sample.wav"] := File "RIFF" ]> (<[ ["work"] := Dir ]> ∅);
     cwd := ["work"];
     console := [];
     engine_log := [] |}.

(** The same, with a regular file called [output] in the way. *)
Definition blocked_world : World :=
  set_fs (<[ ["work"; "output"] := File "" ]> (fs sample_world)) sample_world.

(** 2024-03-07 14:05:09 *)
Definition sample_time : datetime :=
  {| year := 2024; month := 3; day := 7; hour := 14; minute := 5; second := 9;
     microsecond := 0 |}.

(** The world after a line was printed. *)
Definition printed (line : string) (w : World) : World :=
  {| fs := fs w; cwd := cwd w; console := (console w ++ [line])%list;
     engine_log := engine_log w |}.

(** The calls made to the engine between two worlds. *)
Definition calls_made (w w' : World) : list EngineCall :=
  drop (length (engine_log w)) (engine_log w').

(** ** The stages of one run of [transcribe_audio]

    [w1] is the world when [os.makedirs] has returned; the worlds in which
    the later stages start follow from it. *)

Definition output_file_name (output_base_dir : string) (now : datetime) : string :=
  PosixPath.join (dir_path output_base_dir now) [minute_second now +:+ ".txt"].

Definition at_load (model_name : string) (w1 : World) : World :=
  printed ("Loading model: " +:+ model_name) w1.

Definition at_transcribe (audio_path model_name : string) (w1 : World) : World :=
  printed ("Transcribing: " +:+ audio_path)
    (log_call (CallLoadModel model_name) (at_load model_name w1)).

Definition at_write (audio_path model_name : string) (options : gmap string string)
    (w1 : World) : World :=
  log_call (CallTranscribe audio_path options) (at_transcribe audio_path model_name w1).

Section Stages.
Context `{Platform} `{Whisper}.
Variables (now : datetime) (audio_path model_name output_base_dir : string)
          (language task : option string).

(** Model loading raises [e]; [w_f] is the world at that point. *)
Definition loading_fails (w : World) (e : PyExc) (w_f : World) : Prop :=
  exists w1,
    os_makedirs (dir_path output_base_dir now) true w = (Ret tt, w1) /\
    whisper_load_model model_name (at_load model_name w1) = Raise e /\
    w_f = log_call (CallLoadModel model_name) (at_load model_name w1).

(** The model is loaded and transcription raises [e]. *)
Definition transcription_fails (w : World) (e : PyExc) (w_f : World) : Prop :=
  exists w1 m,
    os_makedirs (dir_path output_base_dir now) true w = (Ret tt, w1) /\
    whisper_load_model model_name (at_load model_name w1) = Ret m /\
    model_transcribe m audio_path (build_options language task)
      (at_transcribe audio_path model_name w1) = Raise e /\
    w_f = at_write audio_path model_name (build_options language task) w1.

(** The engine returned a result and writing the file raises [e]. *)
Definition writing_fails (w : World) (e : PyExc) (w_f : World) : Prop :=
  exists w1 m result,
    os_makedirs (dir_path output_base_dir now) true w = (Ret tt, w1) /\
    whisper_load_model model_name (at_load model_name w1) = Ret m /\
    model_transcribe m audio_path (build_options language task)
      (at_transcribe audio_path model_name w1) = Ret result /\
    write_text_file (output_file_name output_base_dir now) (text result)
      (at_write audio_path model_name (build_options language task) w1)
    = (Raise e, w_f).

(** The engine returned [result] and the file was written. *)
Definition all_succeed (w : World) (result : TranscribeResult) (w_f : World) : Prop :=
  exists w1 m,
    os_makedirs (dir_path output_base_dir now) true w = (Ret tt, w1) /\
    whisper_load_model model_name (at_load model_name w1) = Ret m /\
    model_transcribe m audio_path (build_options language task)
      (at_transcribe audio_path model_name w1) = Ret result /\
    write_text_file (output_file_name output_base_dir now) (text result)
      (at_write audio_path model_name (build_options language task) w1)
    = (Ret tt, w_f).

End Stages.

(** ** The words of the specification

    The definitions of this part follow the specification, not the script;
    the theorems compare them with the script. *)

Definition digit (k : Z) : ascii := ascii_of_nat (48 + Z.to_nat k).

(** A number below one hundred as a zero-padded two-digit field. *)
Definition two_digits (n : Z) : string :=
  String (digit (n / 10)) (String (digit (n mod 10)) "").

(** [<base>/<2-digit-year>/<2-digit-month>/<2-digit-day><2-digit-hour>] *)
Definition spec_directory (base_dir : string) (now : datetime) : string :=
  base_dir +:+ "/" +:+ two_digits (year now mod 100) +:+ "/" +:+
  two_digits (month now) +:+ "/" +:+ two_digits (day now) +:+ two_digits (hour now).

(** [<2-digit-minute><2-digit-second>] *)
Definition spec_stem (now : datetime) : string :=
  two_digits (minute now) +:+ two_digits (second now).

(** The Path Builder returns the pair of the specification whenever it
    returns, whatever the base directory. *)
Definition path_builder_form_for_every_base : Prop :=
  forall (P : Platform) (now : datetime) (base_dir : string) (w w' : World)
         (r : string * string),
    datetime_ok now = true ->
    create_datetime_directory now base_dir w = (Ret r, w') ->
    r = (spec_directory base_dir now, spec_stem now).


(** [transcribe_audio] returns to its caller whatever happens in its body. *)
Definition transcribe_audio_never_raises : Prop :=
  forall (P : Platform) (E : Whisper) (now : datetime)
         (audio_path model_name output_base_dir : string)
         (language task : option string) (w : World),
  exists (r : option string) (w' : World),
    transcribe_audio now audio_path model_name output_base_dir language task w
    = (Ret r, w').

(** ** What the script computes

    Closed forms of the values the script builds, used to state the
    theorems. *)

(** The check made on each number below one hundred: [format(n, "02d")]
    is the two-digit field, made of decimal digits. *)
Definition two_digit_check (n : Z) : bool :=
  String.eqb (PyStr.format_0d 2 n) (two_digits n)
  && negb (Ascii.eqb (digit (n / 10)) "/")
  && negb (Ascii.eqb (digit (n mod 10)) "/")
  && PyStr.is_digit (digit (n / 10)) && PyStr.is_digit (digit (n mod 10)).

(** What [os.path.join] puts between the base directory and the next
    component. *)
Definition separator_after (base_dir : string) : string :=
  if PyStr.falsy base_dir || PyStr.endswith_char "/" base_dir then "" else "/".

(** The directory name the script builds, for any base. *)
Definition path_form (base_dir : string) (now : datetime) : string :=
  base_dir +:+ separator_after base_dir +:+ two_digits (year now mod 100) +:+ "/" +:+
  two_digits (month now) +:+ "/" +:+ two_digits (day now) +:+ two_digits (hour now).

(** The directory name without its last field. *)
Definition base_dir_part (base_dir : string) (now : datetime) : string :=
  base_dir +:+ separator_after base_dir +:+ two_digits (year now mod 100) +:+ "/" +:+
  two_digits (month now) +:+ "/" +:+ two_digits (day now).

(** Two clock readings in the same second. *)
Definition same_second (t1 t2 : datetime) : Prop :=
  year t1 = year t2 /\ month t1 = month t2 /\ day t1 = day t2 /\
  hour t1 = hour t2 /\ minute t1 = minute t2 /\ second t1 = second t2.



(** The namespace of a command line that gives only the audio file. *)
Definition default_namespace (audio : string) : Argparse.Namespace :=
  {| Argparse.audio := audio; Argparse.model := "tiny"; Argparse.output := "output";
     Argparse.language := None; Argparse.task := "transcribe" |}.

Definition with_model (m : string) (a : Argparse.Namespace) : Argparse.Namespace :=
  {| Argparse.audio := Argparse.audio a; Argparse.model := m;
     Argparse.output := Argparse.output a; Argparse.language := Argparse.language a;
     Argparse.task := Argparse.task a |}.

Definition with_task (t : string) (a : Argparse.Namespace) : Argparse.Namespace :=
  {| Argparse.audio := Argparse.audio a; Argparse.model := Argparse.model a;
     Argparse.output := Argparse.output a; Argparse.language := Argparse.language a;
     Argparse.task := t |}.



(** ** Further notions used to state properties of the script *)

(** The location a path name resolves to. *)
Definition locate (w : World) (name : string) : Errno + list string :=
  Posix.walk (fs w) (Posix.start w name) (Posix.components name).

(** The fields of a clock reading that the output file name shows: the
    year within its century, then month, day, hour, minute and second. *)
Definition second_of_century (t : datetime) : list Z :=
  [year t mod 100; month t; day t; hour t; minute t; second t].

(** Lexicographic comparison of two lists of numbers. *)
Fixpoint lex_compare (a b : list Z) : comparison :=
  match a, b with
  | [], [] => Eq
  | [], _ :: _ => Lt
  | _ :: _, [] => Gt
  | x :: a', y :: b' =>
      match x ?= y with
      | Eq => lex_compare a' b'
      | c => c
      end
  end.

(** The check made on each pair of numbers below one hundred: their
    two-digit fields compare as the numbers do. *)
Definition two_digit_order_check (a b : Z) : bool :=
  match (match Ascii.compare (digit (a / 10)) (digit (b / 10)) with
         | Eq => Ascii.compare (digit (a mod 10)) (digit (b mod 10))
         | c => c
         end), (a ?= b) with
  | Eq, Eq | Lt, Lt | Gt, Gt => true
  | _, _ => false
  end.

(** An engine whose transcript names the audio file it was given. *)
Definition echo_engine : Whisper :=
  {| Model := string;
     whisper_load_model := fun name _ => Ret name;
     model_transcribe := fun _ audio _ _ => Ret {| text := "transcript of " +:+ audio |} |}.
(** * Properties *)

(** ** Examples of the library functions *)

Example format_0d_examples :
  PyStr.format_0d 2 7 = "07" /\ PyStr.format_0d 2 24 = "24" /\
  PyStr.format_0d 2 0 = "00" /\ PyStr.format_0d 2 123 = "123" /\
  PyStr.format_0d 2 (-5) = "-5".
Proof. repeat split; reflexivity. Qed.

Example join_examples :
  PosixPath.join "output" ["24/03"; "0714"] = "output/24/03/0714" /\
  PosixPath.join "output/" ["24/03"; "0714"] = "output/24/03/0714" /\
  PosixPath.join "" ["24/03"; "0714"] = "24/03/0714" /\
  PosixPath.join "output" ["/24"; "0714"] = "/24/0714".
Proof. repeat split; reflexivity. Qed.

Example parse_examples :
  Argparse.parse ["a.wav"] = Argparse.Parsed (default_namespace "a.wav") /\
  Argparse.parse ["a.wav"; "--task"; "foo"] = Argparse.ExitUsage /\
  Argparse.parse ["--task=translate"; "--"; "-a.wav"]
  = Argparse.Parsed (with_task "translate" (default_namespace "-a.wav")) /\
  Argparse.parse ["--mod"; "base"; "a.wav"]
  = Argparse.Parsed (with_model "base" (default_namespace "a.wav")) /\
  Argparse.parse [] = Argparse.ExitUsage /\
  Argparse.parse ["a.wav"; "b.wav"] = Argparse.ExitUsage /\
  Argparse.parse ["a.wav"; "--verbose"] = Argparse.ExitUsage /\
  Argparse.parse ["a.wav"; "-h"] = Argparse.ExitHelp.
Proof. repeat split; vm_compute; reflexivity. Qed.

(** The scenario of the specification: [sample.wav], the defaults, and the
    clock at 2024-03-07 14:05:09. *)
Example main_sample_run :
  let run := @main permissive (fixed_engine "hello") ["sample.wav"] sample_time
               sample_world in
  fst run = Ret tt /\
  console (snd run) = ["Loading model: tiny"; "Transcribing: sample.wav";
                       "Transcription saved to: output/24/03/0714/0509.txt"] /\
  read_file (snd run) "output/24/03/0714/0509.txt" = Some "hello" /\
  isdir (snd run) "output/24/03/0714" = true.
Proof. repeat split; vm_compute; reflexivity. Qed.

(** ** Formatting and joining *)

Lemma below_100_cases (P : Z -> Prop) :
  (forall k : nat, (k < 100)%nat -> P (Z.of_nat k)) ->
  forall n : Z, 0 <= n < 100 -> P n.
Proof.
  intros HP n Hn. rewrite <- (Z2Nat.id n) by lia. apply HP. lia.
Qed.

Lemma two_digit_check_all :
  List.forallb two_digit_check (List.map Z.of_nat (List.seq 0 100)) = true.
Proof. vm_compute. reflexivity. Qed.

Lemma two_digit_check_ok (n : Z) : 0 <= n < 100 -> two_digit_check n = true.
Proof.
  intros Hn. pose proof two_digit_check_all as H.
  rewrite List.forallb_forall in H. apply H.
  apply List.in_map_iff. exists (Z.to_nat n). split; [lia|].
  apply List.in_seq. lia.
Qed.

Lemma format_two_digits (n : Z) :
  0 <= n < 100 -> PyStr.format_0d 2 n = two_digits n.
Proof.
  intros Hn. pose proof (two_digit_check_ok n Hn) as H.
  unfold two_digit_check in H. repeat (apply andb_prop in H as [H ?]).
  by apply String.eqb_eq.
Qed.

Lemma two_digits_numeric (n : Z) :
  0 <= n < 100 -> PyStr.all_digits (two_digits n) = true.
Proof.
  intros Hn. pose proof (two_digit_check_ok n Hn) as H.
  unfold two_digit_check in H.
  apply andb_prop in H as [H He]. apply andb_prop in H as [_ Hd].
  unfold two_digits. cbn [PyStr.all_digits]. by rewrite Hd, He.
Qed.

Lemma digit_not_slash (n : Z) :
  0 <= n < 100 ->
  Ascii.eqb (digit (n / 10)) "/" = false /\ Ascii.eqb (digit (n mod 10)) "/" = false.
Proof.
  intros Hn. pose proof (two_digit_check_ok n Hn) as H.
  unfold two_digit_check in H. repeat (apply andb_prop in H as [H ?]).
  split; by apply negb_true_iff.
Qed.

Lemma datetime_ok_ranges (t : datetime) :
  datetime_ok t = true ->
  0 <= year t mod 100 < 100 /\ 0 <= month t < 100 /\ 0 <= day t < 100 /\
  0 <= hour t < 100 /\ 0 <= minute t < 100 /\ 0 <= second t < 100.
Proof.
  unfold datetime_ok. intros H.
  repeat (apply andb_prop in H as [H ?]).
  assert (days_in_month (year t) (month t) <= 31).
  { unfold days_in_month. repeat case_match; lia. }
  pose proof (Z.mod_pos_bound (year t) 100). lia.
Qed.

(** [String.append] does not unfold under [simpl]; its two equations. *)
Lemma str_app_nil (t : string) : "" +:+ t = t.
Proof. reflexivity. Qed.

Lemma str_app_cons (a : ascii) (s t : string) : String a s +:+ t = String a (s +:+ t).
Proof. reflexivity. Qed.

Ltac str_norm := rewrite ?str_app_cons, ?str_app_nil.

Lemma str_app_assoc (a b c : string) : (a +:+ b) +:+ c = a +:+ (b +:+ c).
Proof. induction a as [|x a IH]; str_norm; [done | by rewrite IH]. Qed.

Lemma endswith_char_app (c : ascii) (s t : string) :
  t <> "" -> PyStr.endswith_char c (s +:+ t) = PyStr.endswith_char c t.
Proof.
  intros Ht. induction s as [|a s IH]; str_norm; [done|].
  destruct (s +:+ t) as [|b r] eqn:E.
  - destruct s; revert E; str_norm; [congruence | discriminate].
  - rewrite <- IH. done.
Qed.

Lemma falsy_app_r (s t : string) : t <> "" -> PyStr.falsy (s +:+ t) = false.
Proof. intros Ht. destruct s; str_norm; [by destruct t | done]. Qed.

(** The directory name for any base: the separator after the base is left
    out when the base is empty or ends with a slash. *)
Lemma dir_path_form (base_dir : string) (now : datetime) :
  datetime_ok now = true ->
  dir_path base_dir now =
    base_dir +:+ separator_after base_dir +:+ two_digits (year now mod 100) +:+ "/" +:+
    two_digits (month now) +:+ "/" +:+ two_digits (day now) +:+ two_digits (hour now).
Proof.
  intros Hok. destruct (datetime_ok_ranges now Hok) as (Hy & Hm & Hd & Hh & _ & _).
  unfold dir_path, year_month, day_hour.
  rewrite !format_two_digits by done.
  destruct (digit_not_slash _ Hy) as [Hy1 Hy2].
  destruct (digit_not_slash _ Hm) as [Hm1 Hm2].
  destruct (digit_not_slash _ Hd) as [Hd1 Hd2].
  unfold two_digits. cbn [PosixPath.join fold_left]. str_norm.
  unfold PosixPath.join2 at 2. cbn [PyStr.startswith_char]. rewrite Hy1.
  unfold PosixPath.join2. cbn [PyStr.startswith_char]. rewrite Hd1.
  unfold separator_after, PosixPath.sep.
  destruct (PyStr.falsy base_dir || PyStr.endswith_char "/" base_dir) eqn:E.
  - rewrite falsy_app_r by done. rewrite endswith_char_app by done.
    cbn [PyStr.endswith_char]. rewrite Hm2. cbn [orb].
    rewrite !str_app_assoc. str_norm. done.
  - rewrite falsy_app_r by done.
    rewrite !endswith_char_app by done.
    cbn [PyStr.endswith_char]. rewrite Hm2. cbn [orb].
    rewrite !str_app_assoc. str_norm. done.
Qed.

Lemma minute_second_form (now : datetime) :
  datetime_ok now = true -> minute_second now = spec_stem now.
Proof.
  intros Hok. destruct (datetime_ok_ranges now Hok) as (_ & _ & _ & _ & Hmi & Hs).
  unfold minute_second, spec_stem. by rewrite !format_two_digits.
Qed.

(** ** The file tree *)

Lemma node_at_insert_ne (t : gmap (list string) Node) (p q : list string) (n : Node) :
  p <> q -> Posix.node_at (<[p := n]> t) q = Posix.node_at t q.
Proof.
  intros Hne. destruct q as [|c q]; [done|].
  cbn [Posix.node_at]. by rewrite lookup_insert_ne.
Qed.

Lemma node_at_insert_eq (t : gmap (list string) Node) (p : list string) (n : Node) :
  p <> [] -> Posix.node_at (<[p := n]> t) p = Some n.
Proof.
  intros Hne. destruct p as [|c p]; [done|].
  cbn [Posix.node_at]. by rewrite lookup_insert_eq.
Qed.

Lemma step_name (cur : list string) (c : string) :
  Posix.is_special c = false -> Posix.step cur c = (cur ++ [c])%list.
Proof.
  unfold Posix.is_special, Posix.step. intros H.
  apply orb_false_elim in H as [H H3]. rewrite H, H3. done.
Qed.

Lemma app_singleton_ne (cur : list string) (c : string) : cur <> (cur ++ [c])%list.
Proof.
  intros E. apply (f_equal length) in E. rewrite length_app in E. simpl in E. lia.
Qed.

(** A successful resolution only went through directories, so it is not
    affected by a change at a place that held no directory. *)
Lemma walk_insert_nondir (t : gmap (list string) Node) (p : list string) (n : Node)
    (comps cur q : list string) :
  Posix.node_at t p <> Some Dir ->
  Posix.walk t cur comps = inr q ->
  Posix.walk (<[p := n]> t) cur comps = inr q.
Proof.
  intros Hp. revert cur. induction comps as [|c rest IH]; intros cur Hw; [done|].
  cbn [Posix.walk] in *.
  destruct (Posix.node_at t cur) as [[|?]|] eqn:Ecur; try discriminate.
  rewrite node_at_insert_ne by congruence. rewrite Ecur. by apply IH.
Qed.

Section Tree.
Context `{Platform}.

(** [mkdir_p] never removes or changes a node. *)
Lemma mkdir_p_preserves (comps : list string) :
  forall (t t' : gmap (list string) Node) (cur : list string) (r : option Errno)
         (x : list string) (n : Node),
    Posix.mkdir_p t cur comps = (r, t') ->
    Posix.node_at t x = Some n -> Posix.node_at t' x = Some n.
Proof.
  induction comps as [|c rest IH]; intros t t' cur r x n Hm Hx.
  - cbn [Posix.mkdir_p] in Hm. repeat case_match; congruence.
  - cbn [Posix.mkdir_p] in Hm.
    destruct (Posix.node_at t cur) as [[|?]|] eqn:Ecur; [|congruence..].
    destruct (Posix.is_special c); [by eapply IH|].
    destruct (Posix.node_at t (cur ++ [c])) eqn:Enext; [by eapply IH|].
    destruct (mkdir_fault (cur ++ [c])); [congruence|].
    eapply IH; [exact Hm|].
    rewrite node_at_insert_ne; [done|]. congruence.
Qed.

(** After a successful [mkdir_p] the path resolves to a directory. *)
Lemma mkdir_p_success (comps : list string) :
  forall (t t' : gmap (list string) Node) (cur : list string),
    Posix.mkdir_p t cur comps = (None, t') ->
    exists q, Posix.walk t' cur comps = inr q /\ Posix.node_at t' q = Some Dir.
Proof.
  induction comps as [|c rest IH]; intros t t' cur Hm.
  - cbn [Posix.mkdir_p] in Hm.
    destruct (Posix.node_at t cur) as [[|?]|] eqn:Ecur; try congruence.
    exists cur. split; [done|]. congruence.
  - pose proof Hm as Hm'. cbn [Posix.mkdir_p] in Hm.
    destruct (Posix.node_at t cur) as [[|?]|] eqn:Ecur; try congruence.
    pose proof (mkdir_p_preserves _ _ _ _ _ _ _ Hm' Ecur) as Ecur'.
    cbn [Posix.walk]. rewrite Ecur'.
    destruct (Posix.is_special c) eqn:Es; [by eapply IH|].
    rewrite step_name by done.
    destruct (Posix.node_at t (cur ++ [c])) eqn:Enext; [by eapply IH|].
    destruct (mkdir_fault (cur ++ [c])); [congruence|]. by eapply IH.
Qed.

(** On a path that already resolves to a directory [mkdir_p] changes
    nothing and succeeds. *)
Lemma mkdir_p_existing (comps : list string) :
  forall (t : gmap (list string) Node) (cur q : list string),
    Posix.walk t cur comps = inr q -> Posix.node_at t q = Some Dir ->
    Posix.mkdir_p t cur comps = (None, t).
Proof.
  induction comps as [|c rest IH]; intros t cur q Hw Hq.
  - cbn in Hw. injection Hw as ->. cbn [Posix.mkdir_p]. by rewrite Hq.
  - cbn [Posix.walk] in Hw. cbn [Posix.mkdir_p].
    destruct (Posix.node_at t cur) as [[|?]|] eqn:Ecur; try discriminate.
    destruct (Posix.is_special c) eqn:Es; [by eapply IH|].
    rewrite step_name in Hw by done.
    assert (Posix.node_at t (cur ++ [c]) = Some Dir) as ->; [|by eapply IH].
    destruct rest as [|c' rest'].
    + cbn in Hw. by injection Hw as ->.
    + cbn [Posix.walk] in Hw.
      destruct (Posix.node_at t (cur ++ [c])) as [[|?]|]; done.
Qed.

End Tree.

(** ** The world *)

Lemma set_fs_same (w : World) : set_fs (fs w) w = w.
Proof. by destruct w. Qed.

Lemma isdir_printed (line : string) (w : World) (name : string) :
  isdir (printed line w) name = isdir w name.
Proof. reflexivity. Qed.

Lemma isdir_log_call (c : EngineCall) (w : World) (name : string) :
  isdir (log_call c w) name = isdir w name.
Proof. reflexivity. Qed.

Lemma print_run (line : string) (w : World) : print line w = (Ret tt, printed line w).
Proof. reflexivity. Qed.

(** [isdir] spelled out. *)
Lemma isdir_true (w : World) (name : string) :
  isdir w name = true <->
  PyStr.falsy name = false /\
  exists q, Posix.walk (fs w) (Posix.start w name) (Posix.components name) = inr q /\
            Posix.node_at (fs w) q = Some Dir.
Proof.
  unfold isdir, Posix.stat. destruct (PyStr.falsy name).
  { split; [discriminate | intros [? _]; discriminate]. }
  destruct (Posix.walk _ _ _) as [e|q].
  { split; [discriminate | intros (_ & q & Hq & _); discriminate]. }
  destruct (Posix.node_at (fs w) q) as [[|?]|] eqn:E.
  - split; [intros _; split; [done | by exists q] | done].
  - split; [discriminate | intros (_ & q' & Hq' & Hn); congruence].
  - split; [discriminate | intros (_ & q' & Hq' & Hn); congruence].
Qed.

Section WorldLemmas.
Context `{Platform}.

Lemma os_makedirs_frame (name : string) (exist_ok : bool) (w w' : World)
    (o : Outcome unit) :
  os_makedirs name exist_ok w = (o, w') ->
  cwd w' = cwd w /\ console w' = console w /\ engine_log w' = engine_log w.
Proof.
  unfold os_makedirs. intros Hm.
  repeat case_match; simplify_eq; done.
Qed.

(** When [os.makedirs] returns, the directory exists. *)
Lemma os_makedirs_isdir (name : string) (w w' : World) :
  os_makedirs name true w = (Ret tt, w') -> isdir w' name = true.
Proof.
  unfold os_makedirs. intros Hm.
  destruct (PyStr.falsy name) eqn:En; [discriminate|]. cbn [negb andb] in Hm.
  destruct (Posix.mkdir_p _ _ _) as [[e|] t] eqn:Ep; simplify_eq.
  apply isdir_true. split; [done|].
  by apply mkdir_p_success in Ep.
Qed.

(** With [exist_ok=True], [os.makedirs] on an existing directory returns
    and leaves the world as it is. *)
Lemma os_makedirs_existing (name : string) (w : World) :
  isdir w name = true -> os_makedirs name true w = (Ret tt, w).
Proof.
  intros Hd. apply isdir_true in Hd as (En & q & Hw & Hq).
  unfold os_makedirs. rewrite En. cbn [negb andb].
  rewrite (mkdir_p_existing _ _ _ _ Hw Hq). by rewrite set_fs_same.
Qed.

(** Without [exist_ok] the same call raises [FileExistsError]. *)
Lemma os_makedirs_not_exist_ok (name : string) (w : World) :
  isdir w name = true -> os_makedirs name false w = (Raise (os_error EEXIST name w), w).
Proof.
  intros Hd. pose proof Hd as Hd'. apply isdir_true in Hd' as (En & _).
  unfold os_makedirs. rewrite En. cbn [negb andb].
  unfold isdir in Hd. by destruct (Posix.stat w name) as [e|[|c]].
Qed.

(** Every failure of [os.makedirs] is an [OSError]. *)
Lemma os_makedirs_raises (name : string) (exist_ok : bool) (w w' : World) (e : PyExc) :
  os_makedirs name exist_ok w = (Raise e, w') ->
  exists errno, e = os_error errno name w.
Proof.
  unfold os_makedirs. intros Hm. repeat case_match; simplify_eq; eauto.
Qed.

Lemma write_text_file_frame (name data : string) (w w' : World) (o : Outcome unit) :
  write_text_file name data w = (o, w') ->
  cwd w' = cwd w /\ console w' = console w /\ engine_log w' = engine_log w.
Proof.
  unfold write_text_file. intros Hm.
  repeat case_match; simplify_eq; done.
Qed.

Lemma write_text_file_raises (name data : string) (w w' : World) (e : PyExc) :
  write_text_file name data w = (Raise e, w') ->
  exists errno, e = os_error errno name w.
Proof.
  unfold write_text_file. intros Hm. repeat case_match; simplify_eq; eauto.
Qed.

(** Whether it returns or raises, writing a file leaves every directory in
    place. *)
Lemma write_text_file_keeps_dir (name data : string) (w w' : World)
    (o : Outcome unit) (d : string) :
  write_text_file name data w = (o, w') -> isdir w d = true -> isdir w' d = true.
Proof.
  intros Hwr Hd. apply isdir_true in Hd as (En & q & Hw & Hq).
  apply isdir_true. split; [done|].
  unfold write_text_file in Hwr.
  destruct (PyStr.falsy name); [simplify_eq; eauto|].
  destruct (Posix.walk (fs w) (Posix.start w name) (Posix.components name))
    as [e|p] eqn:Ew; [simplify_eq; eauto|].
  destruct (Posix.node_at (fs w) p) as [[|c]|] eqn:Ep0; [simplify_eq; eauto|..].
  all: assert (Posix.node_at (fs w) p <> Some Dir) as Ep by congruence.
  all: assert (forall n, exists q',
    Posix.walk (<[p := n]> (fs w)) (Posix.start w d) (Posix.components d) = inr q' /\
    Posix.node_at (<[p := n]> (fs w)) q' = Some Dir) as Hins
    by (intros n; exists q; split; [by apply walk_insert_nondir|];
        rewrite node_at_insert_ne; [done | congruence]).
  all: repeat case_match; simplify_eq; eauto; apply Hins.
Qed.

(** What was written can be read back. *)
Lemma write_text_file_read (name data : string) (w w' : World) :
  write_text_file name data w = (Ret tt, w') -> read_file w' name = Some data.
Proof.
  unfold write_text_file, read_file, Posix.stat. intros Hwr.
  destruct (PyStr.falsy name); [discriminate|].
  destruct (Posix.walk (fs w) (Posix.start w name) (Posix.components name))
    as [e|p] eqn:Ew; [discriminate|].
  assert (Posix.node_at (fs w) p <> Some Dir) as Ep.
  { intros Ep. rewrite Ep in Hwr. discriminate. }
  assert (p <> []) as Hp by (intros ->; by apply Ep).
  assert (w' = set_fs (<[p := File data]> (fs w)) w) as ->.
  { repeat case_match; simplify_eq; done. }
  cbn [set_fs fs]. change (Posix.start (set_fs _ w) name) with (Posix.start w name).
  rewrite (walk_insert_nondir _ _ _ _ _ _ Ep Ew).
  by rewrite node_at_insert_eq.
Qed.

End WorldLemmas.

(** ** Running the script *)

Section Runs.
Context `{Platform} `{Whisper}.

Lemma create_datetime_directory_run (now : datetime) (base_dir : string) (w : World) :
  create_datetime_directory now base_dir w =
    match os_makedirs (dir_path base_dir now) true w with
    | (Ret _, w') => (Ret (dir_path base_dir now, minute_second now), w')
    | (Raise e, w') => (Raise e, w')
    end.
Proof. reflexivity. Qed.

Lemma create_datetime_directory_returns (now : datetime) (base_dir : string)
    (w w' : World) (r : string * string) :
  create_datetime_directory now base_dir w = (Ret r, w') <->
  os_makedirs (dir_path base_dir now) true w = (Ret tt, w') /\
  r = (dir_path base_dir now, minute_second now).
Proof.
  rewrite create_datetime_directory_run.
  destruct (os_makedirs _ _ _) as [[[]|e] w1]; split.
  - intros [= <- <-]. done.
  - intros [[= <-] ->]. done.
  - discriminate.
  - intros [? _]. discriminate.
Qed.

Variables (now : datetime) (audio_path model_name output_base_dir : string)
          (language task : option string).

Local Abbreviation body :=
  (transcribe_audio_body now audio_path model_name output_base_dir language task).
Local Abbreviation run :=
  (transcribe_audio now audio_path model_name output_base_dir language task).

Lemma body_makedirs_raises (w w' : World) (e : PyExc) :
  os_makedirs (dir_path output_base_dir now) true w = (Raise e, w') ->
  body w = (Raise e, w').
Proof.
  intros Hm. unfold transcribe_audio_body, bind.
  rewrite create_datetime_directory_run, Hm. done.
Qed.

Lemma body_loading_fails (w w' : World) (e : PyExc) :
  loading_fails now model_name output_base_dir w e w' -> body w = (Raise e, w').
Proof.
  intros (w1 & Hm & Hl & ->). unfold transcribe_audio_body, bind.
  rewrite create_datetime_directory_run, Hm, print_run.
  unfold load_model. fold (at_load model_name w1). rewrite Hl. done.
Qed.

Lemma body_transcription_fails (w w' : World) (e : PyExc) :
  transcription_fails now audio_path model_name output_base_dir language task w e w' ->
  body w = (Raise e, w').
Proof.
  intros (w1 & m & Hm & Hl & Ht & ->). unfold transcribe_audio_body, bind.
  rewrite create_datetime_directory_run, Hm, print_run.
  unfold load_model. fold (at_load model_name w1). rewrite Hl, print_run.
  unfold transcribe. fold (at_transcribe audio_path model_name w1). rewrite Ht. done.
Qed.

Lemma body_writing_fails (w w' : World) (e : PyExc) :
  writing_fails now audio_path model_name output_base_dir language task w e w' ->
  body w = (Raise e, w').
Proof.
  intros (w1 & m & r & Hm & Hl & Ht & Hw). unfold transcribe_audio_body, bind.
  rewrite create_datetime_directory_run, Hm, print_run.
  unfold load_model. fold (at_load model_name w1). rewrite Hl, print_run.
  unfold transcribe. fold (at_transcribe audio_path model_name w1). rewrite Ht.
  fold (at_write audio_path model_name (build_options language task) w1).
  fold (output_file_name output_base_dir now). rewrite Hw. done.
Qed.

Lemma body_all_succeed (w w' : World) (result : TranscribeResult) :
  all_succeed now audio_path model_name output_base_dir language task w result w' ->
  body w = (Ret (Some (output_file_name output_base_dir now)),
            printed ("Transcription saved to: " +:+ output_file_name output_base_dir now) w').
Proof.
  intros (w1 & m & Hm & Hl & Ht & Hw). unfold transcribe_audio_body, bind.
  rewrite create_datetime_directory_run, Hm, print_run.
  unfold load_model. fold (at_load model_name w1). rewrite Hl, print_run.
  unfold transcribe. fold (at_transcribe audio_path model_name w1). rewrite Ht.
  fold (at_write audio_path model_name (build_options language task) w1).
  fold (output_file_name output_base_dir now). rewrite Hw, print_run. done.
Qed.

(** Every run of the body ends in one of five ways. *)
Lemma body_cases (w w' : World) (o : Outcome (option string)) :
  body w = (o, w') ->
  (exists e, os_makedirs (dir_path output_base_dir now) true w = (Raise e, w') /\
             o = Raise e)
  \/ (exists e, loading_fails now model_name output_base_dir w e w' /\ o = Raise e)
  \/ (exists e, transcription_fails now audio_path model_name output_base_dir
                  language task w e w' /\ o = Raise e)
  \/ (exists e, writing_fails now audio_path model_name output_base_dir
                  language task w e w' /\ o = Raise e)
  \/ (exists result w5,
        all_succeed now audio_path model_name output_base_dir language task w result w5 /\
        w' = printed ("Transcription saved to: " +:+ output_file_name output_base_dir now) w5 /\
        o = Ret (Some (output_file_name output_base_dir now))).
Proof.
  intros Hb.
  destruct (os_makedirs (dir_path output_base_dir now) true w) as [[[]|e] w1] eqn:Hm.
  2:{ rewrite (body_makedirs_raises _ _ _ Hm) in Hb. injection Hb as <- <-.
      left. eauto. }
  right.
  destruct (whisper_load_model model_name (at_load model_name w1)) as [m|e] eqn:Hl.
  2:{ left. exists e.
      assert (loading_fails now model_name output_base_dir w e
                (log_call (CallLoadModel model_name) (at_load model_name w1))) as Hf
        by (exists w1; done).
      rewrite (body_loading_fails _ _ _ Hf) in Hb. injection Hb as <- <-. done. }
  right.
  destruct (model_transcribe m audio_path (build_options language task)
              (at_transcribe audio_path model_name w1)) as [r|e] eqn:Ht.
  2:{ left. exists e.
      assert (transcription_fails now audio_path model_name output_base_dir language
                task w e (at_write audio_path model_name (build_options language task) w1))
        as Hf by (exists w1, m; done).
      rewrite (body_transcription_fails _ _ _ Hf) in Hb. injection Hb as <- <-. done. }
  right.
  destruct (write_text_file (output_file_name output_base_dir now) (text r)
              (at_write audio_path model_name (build_options language task) w1))
    as [[[]|e] w5] eqn:Hw.
  - right. exists r, w5.
    assert (all_succeed now audio_path model_name output_base_dir language task w r w5)
      as Hs by (exists w1, m; done).
    rewrite (body_all_succeed _ _ _ Hs) in Hb. injection Hb as <- <-. done.
  - left. exists e.
    assert (writing_fails now audio_path model_name output_base_dir language task w e w5)
      as Hf by (exists w1, m, r; done).
    rewrite (body_writing_fails _ _ _ Hf) in Hb. injection Hb as <- <-. done.
Qed.

(** The [try] statement around the body. *)
Lemma run_of_body (w : World) :
  run w = match body w with
          | (Ret r, w') => (Ret r, w')
          | (Raise e, w') =>
              if is_Exception e
              then (Ret None, printed ("Error transcribing audio: " +:+ exc_str e) w')
              else (Raise e, w')
          end.
Proof.
  unfold transcribe_audio, try_except_Exception.
  destruct (body w) as [[r|e] w']; [done|]. by destruct e.
Qed.

End Runs.

(** ** The Path Builder *)

Example path_builder_sample_run :
  exists w',
    @create_datetime_directory permissive sample_time "output" sample_world
    = (Ret ("output/24/03/0714", "0509"), w') /\
    isdir w' "output/24/03/0714" = true.
Proof. eexists. split; vm_compute; reflexivity. Qed.

(** C1, as stated, fails: for the empty base directory the script returns
    the relative name [24/03/0714], which is not [<base>/24/03/0714]. *)
Lemma path_builder_form_fails_for_empty_base : ~ path_builder_form_for_every_base.
Proof.
  intros Hclaim.
  assert (exists w', @create_datetime_directory permissive sample_time "" sample_world
                     = (Ret ("24/03/0714", "0509"), w')) as [w' Hrun].
  { eexists. vm_compute. reflexivity. }
  apply Hclaim in Hrun; [|reflexivity].
  vm_compute in Hrun. discriminate Hrun.
Qed.

(** C1, amended: for every timestamp the Path Builder returns, whenever
    the directory could be created, the directory name
    [<base><sep><YY>/<MM>/<DD><HH>] and the four-character stem [<mm><ss>],
    every field zero-padded to two digits, where [<sep>] is a slash unless
    the base is empty or already ends with a slash; for a non-empty base
    without a final slash this is [<base>/<YY>/<MM>/<DD><HH>], and for base
    [output] at 2024-03-07 14:05:09 it is [output/24/03/0714] with stem
    [0509]. *)
Theorem path_builder_form `{Platform} (now : datetime) (base_dir : string) (w : World) :
  datetime_ok now = true ->
  create_datetime_directory now base_dir w =
    match os_makedirs (path_form base_dir now) true w with
    | (Ret _, w') => (Ret (path_form base_dir now, spec_stem now), w')
    | (Raise e, w') => (Raise e, w')
    end
  /\ (PyStr.falsy base_dir = false -> PyStr.endswith_char "/" base_dir = false ->
      path_form base_dir now = spec_directory base_dir now)
  /\ String.length (spec_stem now) = 4%nat
  /\ PyStr.all_digits (spec_stem now) = true
  /\ dir_path "output" sample_time = "output/24/03/0714"
  /\ minute_second sample_time = "0509".
Proof.
  intros Hok. split; [|split; [|split; [|split; [|split]]]].
  - rewrite create_datetime_directory_run.
    rewrite (dir_path_form _ _ Hok), (minute_second_form _ Hok). done.
  - intros Hne Hsl. unfold path_form, spec_directory, separator_after.
    by rewrite Hne, Hsl.
  - reflexivity.
  - destruct (datetime_ok_ranges now Hok) as (_ & _ & _ & _ & Hmi & Hs).
    pose proof (two_digits_numeric _ Hmi) as Hd1.
    pose proof (two_digits_numeric _ Hs) as Hd2.
    unfold spec_stem, two_digits in *. str_norm.
    cbn [PyStr.all_digits] in *.
    apply andb_prop in Hd1 as [Ha Hb]. apply andb_prop in Hb as [Hb _].
    by rewrite Ha, Hb, Hd2.
  - reflexivity.
  - reflexivity.
Qed.

Lemma path_builder_form_witness :
  datetime_ok sample_time = true /\
  @create_datetime_directory permissive sample_time "output" sample_world =
    match @os_makedirs permissive (path_form "output" sample_time) true sample_world with
    | (Ret _, w') => (Ret (path_form "output" sample_time, spec_stem sample_time), w')
    | (Raise e, w') => (Raise e, w')
    end.
Proof.
  split; [reflexivity|].
  exact (proj1 (@path_builder_form permissive sample_time "output" sample_world eq_refl)).
Defined.

Lemma same_second_names (now1 now2 : datetime) (base_dir : string) :
  same_second now1 now2 ->
  dir_path base_dir now1 = dir_path base_dir now2 /\
  minute_second now1 = minute_second now2.
Proof.
  intros (Hy & Hm & Hd & Hh & Hmi & Hs).
  unfold dir_path, year_month, day_hour, minute_second.
  by rewrite Hy, Hm, Hd, Hh, Hmi, Hs.
Qed.

(** C6: directory creation by the Path Builder is idempotent.  When a call
    has returned, a second call with a clock reading in the same second
    returns the same directory name and stem, raises nothing although the
    directory now exists, and leaves the world as it is. *)
Theorem path_builder_idempotent `{Platform} (now1 now2 : datetime) (base_dir : string)
    (w w1 : World) (r : string * string) :
  same_second now1 now2 ->
  create_datetime_directory now1 base_dir w = (Ret r, w1) ->
  isdir w1 (fst r) = true /\
  create_datetime_directory now2 base_dir w1 = (Ret r, w1).
Proof.
  intros Hsame Hfirst.
  apply create_datetime_directory_returns in Hfirst as [Hm ->].
  destruct (same_second_names _ _ base_dir Hsame) as [Hd Hs].
  pose proof (os_makedirs_isdir _ _ _ Hm) as Hdir.
  split; [done|].
  apply create_datetime_directory_returns. rewrite <- Hd, <- Hs.
  split; [|done]. by apply os_makedirs_existing.
Qed.

Lemma path_builder_idempotent_witness :
  let later := {| year := 2024; month := 3; day := 7; hour := 14; minute := 5;
                  second := 9; microsecond := 731000 |} in
  let first := @create_datetime_directory permissive sample_time "output" sample_world in
  fst first = Ret ("output/24/03/0714", "0509") /\
  isdir (snd first) "output/24/03/0714" = true /\
  @create_datetime_directory permissive later "output" (snd first)
  = (Ret ("output/24/03/0714", "0509"), snd first).
Proof.
  cbv zeta. split; [vm_compute; reflexivity|].
  refine (@path_builder_idempotent permissive sample_time _ "output" sample_world _
            ("output/24/03/0714", "0509") _ _).
  - repeat split.
  - vm_compute. reflexivity.
Defined.

(** ** The whole tool *)

Section Tool.
Context `{Platform} `{Whisper}.

Lemma main_run (argv : list string) (args : Argparse.Namespace) (now : datetime)
    (w : World) :
  Argparse.parse argv = Argparse.Parsed args ->
  main argv now w =
    match Posix.stat w (Argparse.audio args) with
    | inl _ =>
        (Raise (SystemExit 1),
         printed ("Error: Audio file " +:+ Argparse.audio args +:+ " does not exist") w)
    | inr _ =>
        match transcribe_audio now (Argparse.audio args) (Argparse.model args)
                (Argparse.output args) (Argparse.language args)
                (Some (Argparse.task args)) w with
        | (Ret output_file, w') =>
            if truthy output_file then (Ret tt, w') else (Raise (SystemExit 1), w')
        | (Raise e, w') => (Raise e, w')
        end
    end.
Proof.
  intros Hp. unfold main, parse_args, bind. rewrite Hp.
  unfold ret at 1, os_path_exists.
  destruct (Posix.stat w (Argparse.audio args)) as [e|n]; cbn [negb].
  - rewrite print_run. done.
  - unfold ret at 1.
    destruct (transcribe_audio _ _ _ _ _ _ w) as [[r|e] w']; [|done].
    by destruct (truthy r).
Qed.

Lemma output_file_name_truthy (output_base_dir : string) (now : datetime) :
  truthy (Some (output_file_name output_base_dir now)) = true.
Proof.
  unfold truthy, output_file_name. cbn [PosixPath.join fold_left].
  set (d := dir_path output_base_dir now). unfold PosixPath.join2.
  destruct (PyStr.startswith_char "/" (minute_second now +:+ ".txt")) eqn:Es.
  - destruct (minute_second now +:+ ".txt"); [discriminate | done].
  - destruct (PyStr.falsy d || PyStr.endswith_char "/" d);
      rewrite <- ?str_app_assoc; by rewrite falsy_app_r.
Qed.

Lemma join2_plain (path b : string) :
  PyStr.startswith_char "/" b = false -> PyStr.falsy path = false ->
  PyStr.endswith_char "/" path = false ->
  PosixPath.join2 path b = path +:+ "/" +:+ b.
Proof. intros Hb Hp He. unfold PosixPath.join2. by rewrite Hb, Hp, He. Qed.

Lemma path_form_split (base_dir : string) (now : datetime) :
  path_form base_dir now = base_dir_part base_dir now +:+ two_digits (hour now).
Proof. unfold path_form, base_dir_part. by rewrite !str_app_assoc. Qed.

Lemma output_file_name_form (output_base_dir : string) (now : datetime) :
  datetime_ok now = true ->
  output_file_name output_base_dir now =
    path_form output_base_dir now +:+ "/" +:+ spec_stem now +:+ ".txt".
Proof.
  intros Hok. unfold output_file_name.
  rewrite (dir_path_form _ _ Hok), (minute_second_form _ Hok).
  destruct (datetime_ok_ranges now Hok) as (_ & _ & _ & Hh & Hmi & _).
  destruct (digit_not_slash _ Hh) as [_ Hh2].
  destruct (digit_not_slash _ Hmi) as [Hmi1 _].
  fold (path_form output_base_dir now).
  cbn [PosixPath.join fold_left]. rewrite join2_plain.
  - reflexivity.
  - unfold spec_stem, two_digits. str_norm. exact Hmi1.
  - rewrite path_form_split. by apply falsy_app_r.
  - rewrite path_form_split, endswith_char_app by done.
    unfold two_digits. cbn [PyStr.endswith_char]. exact Hh2.
Qed.

End Tool.

Section Claims.
Context `{Platform} `{Whisper}.

(** C2: when the engine calls and the file write succeed, the file
    [<output_dir>/<stem>.txt] holds exactly the text the engine returned,
    [transcribe_audio] returns the name of that file, the name is printed
    on the console (in the line [Transcription saved to: ...], after the two
    progress lines), and the process exits with status 0. *)
Theorem successful_run (argv : list string) (args : Argparse.Namespace)
    (now : datetime) (w w5 : World) (n : Node) (result : TranscribeResult) :
  datetime_ok now = true ->
  Argparse.parse argv = Argparse.Parsed args ->
  Posix.stat w (Argparse.audio args) = inr n ->
  all_succeed now (Argparse.audio args) (Argparse.model args) (Argparse.output args)
    (Argparse.language args) (Some (Argparse.task args)) w result w5 ->
  let output_file := output_file_name (Argparse.output args) now in
  let w' := printed ("Transcription saved to: " +:+ output_file) w5 in
  output_file = path_form (Argparse.output args) now +:+ "/" +:+ spec_stem now +:+ ".txt"
  /\ transcribe_audio now (Argparse.audio args) (Argparse.model args)
       (Argparse.output args) (Argparse.language args) (Some (Argparse.task args)) w
     = (Ret (Some output_file), w')
  /\ read_file w' output_file = Some (text result)
  /\ console w' = (console w ++ ["Loading model: " +:+ Argparse.model args;
                                 "Transcribing: " +:+ Argparse.audio args;
                                 "Transcription saved to: " +:+ output_file])%list
  /\ main argv now w = (Ret tt, w')
  /\ exit_status (fst (main argv now w)) = 0.
Proof.
  intros Hok Hp Ha Hs output_file w'.
  pose proof (body_all_succeed _ _ _ _ _ _ _ _ _ Hs) as Hb.
  assert (transcribe_audio now (Argparse.audio args) (Argparse.model args)
            (Argparse.output args) (Argparse.language args)
            (Some (Argparse.task args)) w = (Ret (Some output_file), w')) as Hrun.
  { rewrite run_of_body, Hb. done. }
  assert (main argv now w = (Ret tt, w')) as Hmain.
  { rewrite (main_run _ _ _ _ Hp), Ha, Hrun.
    unfold output_file. by rewrite output_file_name_truthy. }
  destruct Hs as (w1 & m & Hm & Hl & Ht & Hw).
  split; [by apply output_file_name_form|].
  split; [done|]. split; [|split; [|split]].
  - apply write_text_file_read in Hw. exact Hw.
  - apply write_text_file_frame in Hw as (_ & Hc & _).
    apply os_makedirs_frame in Hm as (_ & Hc1 & _).
    unfold w'. cbn [printed console]. rewrite Hc. cbn. rewrite Hc1.
    by rewrite <- !app_assoc.
  - done.
  - by rewrite Hmain.
Qed.

(** C3: when the audio path names no existing file-system entry, the tool
    prints an error line, exits with status 1, makes no call to the engine
    (no model loading) and leaves the file tree as it is (no directory is
    created). *)
Theorem missing_audio_exits (argv : list string) (args : Argparse.Namespace)
    (now : datetime) (w : World) (e : Errno) :
  Argparse.parse argv = Argparse.Parsed args ->
  Posix.stat w (Argparse.audio args) = inl e ->
  let w' := snd (main argv now w) in
  fst (main argv now w) = Raise (SystemExit 1)
  /\ exit_status (fst (main argv now w)) = 1
  /\ console w' = (console w ++ ["Error: Audio file " +:+ Argparse.audio args +:+
                                 " does not exist"])%list
  /\ engine_log w' = engine_log w
  /\ fs w' = fs w.
Proof.
  intros Hp Ha. cbv zeta. rewrite (main_run _ _ _ _ Hp), Ha. done.
Qed.


End Claims.

Section Order.
Context `{Platform} `{Whisper}.
Variables (now : datetime) (audio_path model_name output_base_dir : string)
          (language task : option string).

Local Abbreviation body :=
  (transcribe_audio_body now audio_path model_name output_base_dir language task).
Local Abbreviation run :=
  (transcribe_audio now audio_path model_name output_base_dir language task).
Local Abbreviation dir := (dir_path output_base_dir now).

(** Once [os.makedirs] has returned, the directory is there at the end of
    the body however the body ends, and the first call to the engine came
    after. *)
Lemma body_after_makedirs (w w1 w' : World) (o : Outcome (option string)) :
  os_makedirs dir true w = (Ret tt, w1) ->
  body w = (o, w') ->
  isdir w' dir = true /\
  exists rest, engine_log w' = (engine_log w ++ CallLoadModel model_name :: rest)%list.
Proof.
  intros Hm Hb.
  pose proof (os_makedirs_isdir _ _ _ Hm) as Hd.
  pose proof (os_makedirs_frame _ _ _ _ _ Hm) as (_ & _ & Hlog).
  apply body_cases in Hb as [(e & Hm' & _)|[(e & Hf & _)|[(e & Hf & _)|[(e & Hf & _)|Hs]]]].
  - congruence.
  - destruct Hf as (w1' & Hm' & _ & ->). assert (w1' = w1) as -> by congruence.
    split; [done|]. exists []. cbn. by rewrite Hlog.
  - destruct Hf as (w1' & m & Hm' & _ & _ & ->). assert (w1' = w1) as -> by congruence.
    split; [done|]. eexists [_]. cbn. by rewrite Hlog, <- app_assoc.
  - destruct Hf as (w1' & m & r & Hm' & _ & _ & Hw).
    assert (w1' = w1) as -> by congruence.
    split; [by eapply write_text_file_keeps_dir|].
    apply write_text_file_frame in Hw as (_ & _ & ->).
    eexists [_]. cbn. by rewrite Hlog, <- app_assoc.
  - destruct Hs as (r & w5 & (w1' & m & Hm' & _ & _ & Hw) & -> & _).
    assert (w1' = w1) as -> by congruence.
    split; [rewrite isdir_printed; by eapply write_text_file_keeps_dir|].
    apply write_text_file_frame in Hw as (_ & _ & Hlog5).
    eexists [_]. cbn. rewrite Hlog5. cbn. by rewrite Hlog, <- app_assoc.
Qed.

(** The handler only prints: the file tree and the engine log at the end
    of [transcribe_audio] are those at the end of its body. *)
Lemma run_keeps_body_world (w : World) :
  fs (snd (run w)) = fs (snd (body w)) /\
  cwd (snd (run w)) = cwd (snd (body w)) /\
  engine_log (snd (run w)) = engine_log (snd (body w)).
Proof.
  rewrite run_of_body. destruct (body w) as [[r|e] w']; [done|].
  by destruct (is_Exception e).
Qed.

Lemma isdir_same_tree (w w' : World) (name : string) :
  fs w' = fs w -> cwd w' = cwd w -> isdir w' name = isdir w name.
Proof.
  intros Hf Hc. unfold isdir, Posix.stat, Posix.start. by rewrite Hf, Hc.
Qed.

(** C7: the output directory is created before model loading is attempted.
    Either [os.makedirs] itself raised and the engine was never called, or
    the directory exists in the world in which [whisper.load_model] is
    called, and it still exists when [transcribe_audio] is over, however it
    ends; in particular after a failure of model loading, of transcription
    or of the file write. *)
Theorem directory_outlives_failure (w : World) :
  let w' := snd (run w) in
  ((exists e w1, os_makedirs dir true w = (Raise e, w1)) /\
   engine_log w' = engine_log w
   \/
   exists w1,
     os_makedirs dir true w = (Ret tt, w1) /\
     isdir (at_load model_name w1) dir = true /\
     (exists rest,
        engine_log w' = (engine_log w ++ CallLoadModel model_name :: rest)%list) /\
     isdir w' dir = true)
  /\
  (forall e w_f,
     loading_fails now model_name output_base_dir w e w_f
     \/ transcription_fails now audio_path model_name output_base_dir language task
          w e w_f
     \/ writing_fails now audio_path model_name output_base_dir language task w e w_f ->
     isdir w_f dir = true /\ isdir w' dir = true).
Proof.
  cbv zeta.
  destruct (run_keeps_body_world w) as (Hfs & Hcwd & Hlog).
  destruct (body w) as [o wb] eqn:Hb. cbn [snd] in *.
  assert (forall w1, os_makedirs dir true w = (Ret tt, w1) ->
            isdir (snd (run w)) dir = true /\
            exists rest, engine_log (snd (run w))
                         = (engine_log w ++ CallLoadModel model_name :: rest)%list)
    as Hafter.
  { intros w1 Hm. destruct (body_after_makedirs _ _ _ _ Hm Hb) as [Hd Hl].
    rewrite (isdir_same_tree _ _ _ Hfs Hcwd), Hlog. done. }
  split.
  - destruct (os_makedirs dir true w) as [[[]|e] w1] eqn:Hm.
    + right. exists w1. destruct (Hafter w1 eq_refl) as [Hd Hl].
      split; [done|]. split; [|done].
      unfold at_load. rewrite isdir_printed. by eapply os_makedirs_isdir.
    + left. split; [by eauto|].
      rewrite (body_makedirs_raises _ _ _ _ _ _ _ _ _ Hm) in Hb.
      rewrite Hlog. injection Hb as _ <-.
      by apply os_makedirs_frame in Hm as (_ & _ & ->).
  - intros e w_f Hfail.
    assert (body w = (Raise e, w_f)) as Hb'.
    { destruct Hfail as [Hf|[Hf|Hf]].
      - by eapply body_loading_fails.
      - by eapply body_transcription_fails.
      - by eapply body_writing_fails. }
    assert (exists w1, os_makedirs dir true w = (Ret tt, w1)) as [w1 Hm].
    { destruct Hfail as [(w1 & ? & _)|[(w1 & ? & ? & _)|(w1 & ? & ? & ? & _)]]; eauto. }
    split; [|by apply (Hafter w1)].
    by destruct (body_after_makedirs _ _ _ _ Hm Hb').
Qed.

(** C10, amended: the handler of [transcribe_audio] catches every fault
    that is an instance of [Exception], wherever in the body it is raised,
    a failure of the directory creation of the Path Builder included: the
    message is printed and [None] is returned.  What [transcribe_audio] does
    let through is never an instance of [Exception] (it is a
    [KeyboardInterrupt] or a [SystemExit]). *)
Theorem handler_catches_exceptions (w : World) :
  (forall e w', run w = (Raise e, w') -> is_Exception e = false)
  /\ (forall cls msg w1,
        body w = (Raise (Exception_ cls msg), w1) ->
        run w = (Ret None, printed ("Error transcribing audio: " +:+ msg) w1))
  /\ (forall e w1,
        os_makedirs dir true w = (Raise e, w1) ->
        is_Exception e = true /\
        run w = (Ret None, printed ("Error transcribing audio: " +:+ exc_str e) w1)).
Proof.
  split; [|split].
  - intros e w'. rewrite run_of_body.
    destruct (body w) as [[r|e0] w0]; [discriminate|].
    destruct (is_Exception e0) eqn:E; [discriminate|]. congruence.
  - intros cls msg w1 Hb. rewrite run_of_body, Hb. done.
  - intros e w1 Hm.
    pose proof (os_makedirs_raises _ _ _ _ _ Hm) as [errno ->].
    split; [done|].
    rewrite run_of_body, (body_makedirs_raises _ _ _ _ _ _ _ _ _ Hm). done.
Qed.

End Order.

(** ** The options of the engine call *)



Lemma build_options_empty_language (task : option string) :
  build_options (Some "") task = build_options None task.
Proof. reflexivity. Qed.

Lemma calls_made_app (w w' : World) (calls : list EngineCall) :
  engine_log w' = (engine_log w ++ calls)%list -> calls_made w w' = calls.
Proof. intros Hl. unfold calls_made. rewrite Hl. by rewrite drop_app_length. Qed.

Section Calls.
Context `{Platform} `{Whisper}.
Variables (now : datetime) (audio_path model_name output_base_dir : string)
          (language task : option string).

(** The engine is called at most twice, and [model.transcribe] receives the
    audio path and the options built on lines 34 to 38. *)
Lemma calls_of_run (w : World) :
  let calls := calls_made w (snd (transcribe_audio now audio_path model_name
                                    output_base_dir language task w)) in
  calls = [] \/ calls = [CallLoadModel model_name]
  \/ calls = [CallLoadModel model_name;
              CallTranscribe audio_path (build_options language task)].
Proof.
  cbv zeta.
  destruct (run_keeps_body_world now audio_path model_name output_base_dir
              language task w) as (_ & _ & Hlog).
  unfold calls_made. rewrite Hlog. fold (calls_made w (snd (transcribe_audio_body now
    audio_path model_name output_base_dir language task w))).
  destruct (transcribe_audio_body _ _ _ _ _ _ w) as [o wb] eqn:Hb. cbn [snd].
  apply body_cases in Hb as [(e & Hm & _)|[(e & Hf & _)|[(e & Hf & _)|[(e & Hf & _)|Hs]]]].
  - left. apply calls_made_app.
    apply os_makedirs_frame in Hm as (_ & _ & ->). by rewrite app_nil_r.
  - right. left. apply calls_made_app.
    destruct Hf as (w1 & Hm & _ & ->).
    apply os_makedirs_frame in Hm as (_ & _ & Hl). cbn. by rewrite Hl.
  - right. right. apply calls_made_app.
    destruct Hf as (w1 & m & Hm & _ & _ & ->).
    apply os_makedirs_frame in Hm as (_ & _ & Hl). cbn. by rewrite Hl, <- app_assoc.
  - right. right. apply calls_made_app.
    destruct Hf as (w1 & m & r & Hm & _ & _ & Hw).
    apply os_makedirs_frame in Hm as (_ & _ & Hl).
    apply write_text_file_frame in Hw as (_ & _ & ->).
    cbn. by rewrite Hl, <- app_assoc.
  - right. right. apply calls_made_app.
    destruct Hs as (r & w5 & (w1 & m & Hm & _ & _ & Hw) & -> & _).
    apply os_makedirs_frame in Hm as (_ & _ & Hl).
    apply write_text_file_frame in Hw as (_ & _ & Hl5).
    cbn. rewrite Hl5. cbn. by rewrite Hl, <- app_assoc.
Qed.

End Calls.

(** ** The command line *)















Section Options.
Context `{Platform} `{Whisper}.





End Options.


(** C10, as stated, fails: an interrupt from the keyboard during the
    transcription is not an instance of [Exception]; it passes the handler
    and reaches the caller. *)
Lemma transcribe_audio_propagates_interrupt : ~ transcribe_audio_never_raises.
Proof.
  intros Hclaim.
  destruct (Hclaim permissive interrupted_engine sample_time "sample.wav" "tiny"
              "output" None (Some "transcribe") sample_world) as (r & w' & Hrun).
  vm_compute in Hrun. discriminate Hrun.
Qed.

(** ** The theorems at work on the sample world *)

Lemma sample_all_succeed :
  exists w5,
    @all_succeed permissive (fixed_engine "hello") sample_time "sample.wav" "tiny"
      "output" None (Some "transcribe") sample_world {| text := "hello" |} w5.
Proof.
  eexists. eexists _, _.
  split; [vm_compute; reflexivity|]. split; [reflexivity|]. split; [reflexivity|].
  vm_compute. reflexivity.
Defined.

Lemma successful_run_witness :
  let run := @main permissive (fixed_engine "hello") ["sample.wav"] sample_time
               sample_world in
  datetime_ok sample_time = true /\
  Argparse.parse ["sample.wav"] = Argparse.Parsed (default_namespace "sample.wav") /\
  Posix.stat sample_world "sample.wav" = inr (File "RIFF") /\
  fst run = Ret tt /\ exit_status (fst run) = 0 /\
  read_file (snd run) "output/24/03/0714/0509.txt" = Some "hello".
Proof.
  cbv zeta. destruct sample_all_succeed as [w5 Hs].
  assert (Argparse.parse ["sample.wav"] = Argparse.Parsed (default_namespace "sample.wav"))
    as Hp by (vm_compute; reflexivity).
  assert (Posix.stat sample_world "sample.wav" = inr (File "RIFF"))
    as Ha by (vm_compute; reflexivity).
  destruct (@successful_run permissive (fixed_engine "hello") ["sample.wav"]
              (default_namespace "sample.wav") sample_time sample_world w5
              (File "RIFF") {| text := "hello" |} eq_refl Hp Ha Hs)
    as (Hname & Hrun & Hread & Hcons & Hmain & Hexit).
  split; [reflexivity|]. split; [exact Hp|]. split; [exact Ha|].
  rewrite Hmain. split; [reflexivity|]. split; [reflexivity|]. exact Hread.
Defined.

Lemma missing_audio_exits_witness :
  let run := @main permissive (fixed_engine "hello") ["nope.wav"] sample_time
               sample_world in
  Posix.stat sample_world "nope.wav" = inl ENOENT /\
  fst run = Raise (SystemExit 1) /\ exit_status (fst run) = 1 /\
  console (snd run) = ["Error: Audio file nope.wav does not exist"] /\
  engine_log (snd run) = [] /\ fs (snd run) = fs sample_world.
Proof.
  cbv zeta.
  assert (Posix.stat sample_world "nope.wav" = inl ENOENT)
    as Ha by (vm_compute; reflexivity).
  split; [exact Ha|].
  exact (@missing_audio_exits permissive (fixed_engine "hello") ["nope.wav"]
           (default_namespace "nope.wav") sample_time sample_world ENOENT
           ltac:(vm_compute; reflexivity) Ha).
Defined.

Lemma sample_loading_fails :
  exists w_f,
    @loading_fails permissive no_model_engine sample_time "tiny" "output" sample_world
      (Exception_ "RuntimeError" "Model tiny not found") w_f.
Proof.
  eexists. eexists. split; [vm_compute; reflexivity|]. split; reflexivity.
Defined.


Lemma directory_outlives_failure_witness :
  let w' := snd (@transcribe_audio permissive no_model_engine sample_time "sample.wav"
                   "tiny" "output" None (Some "transcribe") sample_world) in
  isdir sample_world "output/24/03/0714" = false /\
  isdir w' "output/24/03/0714" = true.
Proof.
  cbv zeta. split; [vm_compute; reflexivity|].
  destruct sample_loading_fails as [w_f Hf].
  exact (proj2 (proj2 (@directory_outlives_failure permissive no_model_engine
                         sample_time "sample.wav" "tiny" "output" None
                         (Some "transcribe") sample_world)
                  (Exception_ "RuntimeError" "Model tiny not found") w_f
                  (or_introl Hf))).
Defined.

Lemma handler_catches_exceptions_witness :
  exists w1,
    @os_makedirs permissive (dir_path "output" sample_time) true blocked_world
    = (Raise (@os_error permissive ENOTDIR "output/24/03/0714" blocked_world), w1) /\
    @transcribe_audio permissive (fixed_engine "hello") sample_time "sample.wav" "tiny"
      "output" None (Some "transcribe") blocked_world
    = (Ret None, printed "Error transcribing audio: [Errno 20] Not a directory" w1).
Proof.
  assert (exists w1,
            @os_makedirs permissive (dir_path "output" sample_time) true blocked_world
            = (Raise (@os_error permissive ENOTDIR "output/24/03/0714" blocked_world), w1))
    as [w1 Hm] by (eexists; vm_compute; reflexivity).
  exists w1. split; [exact Hm|].
  exact (proj2 (proj2 (proj2 (@handler_catches_exceptions permissive
                                (fixed_engine "hello") sample_time "sample.wav" "tiny"
                                "output" None (Some "transcribe") blocked_world))
                  _ _ Hm)).
Defined.




(** * Further properties of the script *)

(** ** What a run leaves untouched *)

(** Resolution only depends on the directories on the way. *)
Lemma walk_extends (t t' : gmap (list string) Node) (comps cur q : list string) :
  (forall x, Posix.node_at t x = Some Dir -> Posix.node_at t' x = Some Dir) ->
  Posix.walk t cur comps = inr q -> Posix.walk t' cur comps = inr q.
Proof.
  intros Hext. revert cur. induction comps as [|c rest IH]; intros cur Hw; [done|].
  cbn [Posix.walk] in *.
  destruct (Posix.node_at t cur) as [[|?]|] eqn:Ecur; try discriminate.
  rewrite (Hext _ Ecur). by apply IH.
Qed.

Lemma read_file_extends (w w' : World) (name content : string) :
  cwd w' = cwd w ->
  (forall x n, Posix.node_at (fs w) x = Some n -> Posix.node_at (fs w') x = Some n) ->
  read_file w name = Some content -> read_file w' name = Some content.
Proof.
  intros Hcwd Hext. unfold read_file, Posix.stat, Posix.start. rewrite Hcwd.
  destruct (PyStr.falsy name); [done|].
  destruct (Posix.walk (fs w) _ _) as [e|q] eqn:Hw; [done|].
  rewrite (walk_extends (fs w) (fs w') _ _ q); [|by eauto|done].
  destruct (Posix.node_at (fs w) q) as [n|] eqn:Hq; [|done].
  by rewrite (Hext _ _ Hq).
Qed.

Section Frames.
Context `{Platform}.

(** What [mkdir_p] adds is a directory. *)
Lemma mkdir_p_adds_dirs (comps : list string) :
  forall (t t' : gmap (list string) Node) (cur : list string) (r : option Errno)
         (x : list string) (n : Node),
    Posix.mkdir_p t cur comps = (r, t') ->
    Posix.node_at t' x = Some n -> Posix.node_at t x = Some n \/ n = Dir.
Proof.
  induction comps as [|c rest IH]; intros t t' cur r x n Hm Hx.
  - cbn [Posix.mkdir_p] in Hm. left. repeat case_match; congruence.
  - cbn [Posix.mkdir_p] in Hm.
    destruct (Posix.node_at t cur) as [[|?]|] eqn:Ecur; [|left; congruence..].
    destruct (Posix.is_special c); [by eapply IH|].
    destruct (Posix.node_at t (cur ++ [c])) eqn:Enext; [by eapply IH|].
    destruct (mkdir_fault (cur ++ [c])); [left; congruence|].
    destruct (IH _ _ _ _ _ _ Hm Hx) as [Hin|Hd]; [|by right].
    destruct (decide (x = (cur ++ [c])%list)) as [->|Hne].
    + rewrite node_at_insert_eq in Hin by (by destruct cur). right. congruence.
    + left. by rewrite node_at_insert_ne in Hin.
Qed.

Lemma os_makedirs_preserves (name : string) (exist_ok : bool) (w w' : World)
    (o : Outcome unit) (x : list string) (n : Node) :
  os_makedirs name exist_ok w = (o, w') ->
  Posix.node_at (fs w) x = Some n -> Posix.node_at (fs w') x = Some n.
Proof.
  unfold os_makedirs. intros Hm Hx.
  destruct (PyStr.falsy name); [by simplify_eq|].
  destruct (negb exist_ok && _); [by simplify_eq|].
  destruct (Posix.mkdir_p _ _ _) as [r t] eqn:Ep.
  pose proof (mkdir_p_preserves _ _ _ _ _ _ _ Ep Hx).
  destruct r; by simplify_eq.
Qed.

Lemma os_makedirs_adds_dirs (name : string) (exist_ok : bool) (w w' : World)
    (o : Outcome unit) (x : list string) (n : Node) :
  os_makedirs name exist_ok w = (o, w') ->
  Posix.node_at (fs w') x = Some n -> Posix.node_at (fs w) x = Some n \/ n = Dir.
Proof.
  unfold os_makedirs. intros Hm Hx.
  destruct (PyStr.falsy name); [left; by simplify_eq|].
  destruct (negb exist_ok && _); [left; by simplify_eq|].
  destruct (Posix.mkdir_p _ _ _) as [r t] eqn:Ep.
  assert (fs w' = t) as Hfs by (destruct r; by simplify_eq).
  rewrite Hfs in Hx. by eapply mkdir_p_adds_dirs.
Qed.

(** X1: The Path Builder only adds directories.  Whether it returns or raises,
    every node of the file tree is kept as it was, every new node is a
    directory, every file reads as before, and nothing is printed and no
    engine call is made. *)
Theorem path_builder_only_adds_directories (now : datetime) (base_dir : string)
    (w : World) :
  let w' := snd (create_datetime_directory now base_dir w) in
  (forall x n, Posix.node_at (fs w) x = Some n -> Posix.node_at (fs w') x = Some n)
  /\ (forall x n, Posix.node_at (fs w') x = Some n ->
        Posix.node_at (fs w) x = Some n \/ n = Dir)
  /\ (forall name content,
        read_file w name = Some content -> read_file w' name = Some content)
  /\ console w' = console w /\ engine_log w' = engine_log w.
Proof.
  cbv zeta. rewrite create_datetime_directory_run.
  destruct (os_makedirs (dir_path base_dir now) true w) as [o w1] eqn:Hm.
  assert (snd (let (o0, w') := (o, w1) in
               match o0 with
               | Ret _ => (Ret (dir_path base_dir now, minute_second now), w')
               | Raise e => (@Raise (string * string) e, w')
               end) = w1) as -> by (by destruct o).
  pose proof (os_makedirs_frame _ _ _ _ _ Hm) as (Hcwd & Hcons & Hlog).
  assert (forall x n, Posix.node_at (fs w) x = Some n -> Posix.node_at (fs w1) x = Some n)
    as Hkeep by (intros x n; by eapply os_makedirs_preserves).
  split; [done|]. split; [intros x n; by eapply os_makedirs_adds_dirs|].
  split; [|done]. intros name content. by apply read_file_extends.
Qed.

End Frames.

Section RunFrames.
Context `{Platform} `{Whisper}.

(** Writing a file changes at most the node the name resolves to, and this
    node was not a directory. *)
Lemma write_text_file_change (name data : string) (w w' : World) (o : Outcome unit) :
  write_text_file name data w = (o, w') ->
  fs w' = fs w
  \/ exists p content,
       locate w name = inr p /\ Posix.node_at (fs w) p <> Some Dir /\
       fs w' = <[p := File content]> (fs w).
Proof.
  unfold write_text_file, locate. intros Hwr.
  destruct (PyStr.falsy name); [left; by simplify_eq|].
  destruct (Posix.walk (fs w) (Posix.start w name) (Posix.components name))
    as [e|p] eqn:Ew; [left; by simplify_eq|].
  destruct (Posix.node_at (fs w) p) as [[|c]|] eqn:Ep; [left; by simplify_eq|..].
  all: destruct (Posix.node_at (fs w) (removelast p)) as [[|?]|];
    [|left; by simplify_eq..].
  all: destruct (open_fault p); [left; by simplify_eq|].
  all: destruct (write_fault p data) as [[e n]|]; simplify_eq; right;
    eexists p, _; (split; [done|split; [congruence|done]]).
Qed.

Variables (now : datetime) (audio_path model_name output_base_dir : string)
          (language task : option string).

Local Abbreviation body :=
  (transcribe_audio_body now audio_path model_name output_base_dir language task).
Local Abbreviation run :=
  (transcribe_audio now audio_path model_name output_base_dir language task).
Local Abbreviation out := (output_file_name output_base_dir now).

(** The file tree at the end of the body: the tree [os.makedirs] left, with
    at most the output file changed. *)
Lemma body_tree (w wb : World) (o : Outcome (option string)) :
  body w = (o, wb) ->
  cwd wb = cwd w /\
  exists t1,
    (forall x n, Posix.node_at (fs w) x = Some n -> Posix.node_at t1 x = Some n) /\
    (fs wb = t1
     \/ exists p content,
          Posix.walk t1 (Posix.start w out) (Posix.components out) = inr p /\
          Posix.node_at t1 p <> Some Dir /\ fs wb = <[p := File content]> t1).
Proof.
  intros Hb.
  assert (forall w1 oo, os_makedirs (dir_path output_base_dir now) true w = (oo, w1) ->
            cwd w1 = cwd w /\
            forall x n, Posix.node_at (fs w) x = Some n -> Posix.node_at (fs w1) x = Some n)
    as Hmk.
  { intros w1 oo Hm. split; [by apply os_makedirs_frame in Hm as (? & _)|].
    intros x n. by eapply os_makedirs_preserves. }
  assert (forall w1 oo wf ow data opts,
            os_makedirs (dir_path output_base_dir now) true w = (oo, w1) ->
            write_text_file out data (at_write audio_path model_name opts w1) = (ow, wf) ->
            cwd wf = cwd w /\
            exists t1,
              (forall x n, Posix.node_at (fs w) x = Some n -> Posix.node_at t1 x = Some n) /\
              (fs wf = t1
               \/ exists p content,
                    Posix.walk t1 (Posix.start w out) (Posix.components out) = inr p /\
                    Posix.node_at t1 p <> Some Dir /\ fs wf = <[p := File content]> t1))
    as Hwrite.
  { intros w1 oo wf ow data opts Hm Hw.
    destruct (Hmk _ _ Hm) as [Hcwd Hkeep].
    pose proof (write_text_file_frame _ _ _ _ _ Hw) as (Hcwdf & _ & _).
    split; [by rewrite Hcwdf|]. exists (fs w1). split; [done|].
    apply write_text_file_change in Hw as [Hsame|(p & c & Hp & Hnd & Hfs)]; [by left|].
    right. exists p, c. split; [|done].
    unfold locate, Posix.start in Hp. cbn [at_write at_transcribe at_load log_call
      printed cwd fs] in Hp. unfold Posix.start. by rewrite <- Hcwd. }
  apply body_cases in Hb as [(e & Hm & _)|[(e & Hf & _)|[(e & Hf & _)|[(e & Hf & _)|Hs]]]].
  - destruct (Hmk _ _ Hm) as [Hcwd Hkeep]. split; [done|]. exists (fs wb). eauto.
  - destruct Hf as (w1 & Hm & _ & ->). destruct (Hmk _ _ Hm) as [Hcwd Hkeep].
    split; [done|]. exists (fs w1). eauto.
  - destruct Hf as (w1 & m & Hm & _ & _ & ->). destruct (Hmk _ _ Hm) as [Hcwd Hkeep].
    split; [done|]. exists (fs w1). eauto.
  - destruct Hf as (w1 & m & r & Hm & _ & _ & Hw). by eapply Hwrite.
  - destruct Hs as (r & w5 & (w1 & m & Hm & _ & _ & Hw) & -> & _).
    destruct (Hwrite _ _ _ _ _ _ Hm Hw) as (Hc & t1 & Hk & Hch).
    split; [done|]. by exists t1.
Qed.

(** X5: A run of [transcribe_audio] changes at most one file.  However the run
    ends, the working directory is the same, every directory is kept, every
    regular file keeps its content unless it is the node the output file
    name resolves to, and so every file reads as before unless its name
    resolves to the same place as the output file name. *)
Theorem transcribe_audio_changes_one_file (w : World) :
  let w' := snd (run w) in
  cwd w' = cwd w
  /\ (forall x, Posix.node_at (fs w) x = Some Dir -> Posix.node_at (fs w') x = Some Dir)
  /\ (forall x content,
        Posix.node_at (fs w) x = Some (File content) ->
        Posix.node_at (fs w') x = Some (File content) \/ locate w' out = inr x)
  /\ (forall name content,
        read_file w name = Some content ->
        read_file w' name = Some content \/ locate w' name = locate w' out).
Proof.
  cbv zeta.
  destruct (run_keeps_body_world now audio_path model_name output_base_dir
              language task w) as (Hfs & Hcwd & _).
  destruct (body w) as [o wb] eqn:Hb. cbn [snd] in Hfs, Hcwd.
  destruct (body_tree _ _ _ Hb) as (Hcwdb & t1 & Hkeep & Hchange).
  assert (cwd (snd (run w)) = cwd w) as Hc by congruence.
  unfold locate, read_file, Posix.stat, Posix.start. rewrite Hfs, Hc.
  split; [done|].
  destruct Hchange as [Hsame|(p & c & Hp & Hnd & Hins)].
  - rewrite Hsame. split; [by eauto|]. split; [by eauto|].
    intros name content Hr. left.
    destruct (PyStr.falsy name); [done|].
    destruct (Posix.walk (fs w) _ _) as [e|q] eqn:Hw; [done|].
    rewrite (walk_extends (fs w) t1 _ _ q); [|by eauto|done].
    destruct (Posix.node_at (fs w) q) as [n|] eqn:Hq; [|done].
    by rewrite (Hkeep _ _ Hq).
  - rewrite Hins. unfold Posix.start in Hp.
    rewrite (walk_insert_nondir _ _ _ _ _ _ Hnd Hp).
    split; [|split].
    + intros x Hx. rewrite node_at_insert_ne; [by eauto|].
      intros ->. apply Hnd. by eauto.
    + intros x content Hx.
      destruct (decide (x = p)) as [->|Hne]; [by right|].
      left. rewrite node_at_insert_ne by done. by eauto.
    + intros name content Hr.
      destruct (PyStr.falsy name); [done|].
      destruct (Posix.walk (fs w) _ _) as [e|q] eqn:Hw; [done|].
      assert (Posix.walk t1 (if PyStr.startswith_char "/" name then [] else cwd w)
                (Posix.components name) = inr q) as Hw1
        by (eapply walk_extends; [|exact Hw]; by eauto).
      rewrite (walk_insert_nondir _ _ _ _ _ _ Hnd Hw1).
      destruct (decide (q = p)) as [->|Hne]; [by right|].
      left. rewrite node_at_insert_ne by done.
      destruct (Posix.node_at (fs w) q) as [n|] eqn:Hq; [|done].
      by rewrite (Hkeep _ _ Hq).
Qed.

End RunFrames.

(** ** How a run of the tool ends *)

Section Outcomes.
Context `{Platform} `{Whisper}.

(** A fault of the body that is not an instance of [Exception] comes from
    the engine: the failures of [os.makedirs] and of the file write are
    [OSError]s. *)
Lemma body_non_exception (now : datetime) (audio_path model_name
    output_base_dir : string) (language task : option string) (w w' : World)
    (e : PyExc) :
  transcribe_audio_body now audio_path model_name output_base_dir language task w
  = (Raise e, w') ->
  is_Exception e = false ->
  loading_fails now model_name output_base_dir w e w'
  \/ transcription_fails now audio_path model_name output_base_dir language task w e w'.
Proof.
  intros Hb He.
  apply body_cases in Hb as [(e' & Hm & Heq)|[(e' & Hf & Heq)|[(e' & Hf & Heq)|
    [(e' & Hf & Heq)|(r & w5 & _ & _ & Heq)]]]]; try discriminate;
    injection Heq as <-.
  - apply os_makedirs_raises in Hm as [errno ->]. discriminate.
  - by left.
  - by right.
  - destruct Hf as (w1 & m & r & _ & _ & _ & Hw).
    apply write_text_file_raises in Hw as [errno ->]. discriminate.
Qed.

(** X7: Once the command line is parsed, a run of [main] ends in one of four
    ways: it returns, and then every stage succeeded and the output file
    holds the text of the engine; or it exits with status 1 after the line
    about the missing audio file; or it exits with status 1 after the line
    that reports an [Exception] of the body; or a fault of the engine that is
    not an [Exception] goes through, with nothing more printed. *)
Theorem main_outcomes (argv : list string) (args : Argparse.Namespace)
    (now : datetime) (w : World) :
  Argparse.parse argv = Argparse.Parsed args ->
  let o := fst (main argv now w) in
  let w' := snd (main argv now w) in
  let out := output_file_name (Argparse.output args) now in
  (o = Ret tt /\
   exists n result w5,
     Posix.stat w (Argparse.audio args) = inr n /\
     all_succeed now (Argparse.audio args) (Argparse.model args) (Argparse.output args)
       (Argparse.language args) (Some (Argparse.task args)) w result w5 /\
     w' = printed ("Transcription saved to: " +:+ out) w5 /\
     read_file w' out = Some (text result))
  \/ (o = Raise (SystemExit 1) /\
      exists e, Posix.stat w (Argparse.audio args) = inl e /\
      w' = printed ("Error: Audio file " +:+ Argparse.audio args +:+ " does not exist") w)
  \/ (o = Raise (SystemExit 1) /\
      exists n cls msg w_f,
        Posix.stat w (Argparse.audio args) = inr n /\
        transcribe_audio_body now (Argparse.audio args) (Argparse.model args)
          (Argparse.output args) (Argparse.language args) (Some (Argparse.task args)) w
        = (Raise (Exception_ cls msg), w_f) /\
        w' = printed ("Error transcribing audio: " +:+ msg) w_f)
  \/ (exists e n,
        o = Raise e /\ is_Exception e = false /\
        Posix.stat w (Argparse.audio args) = inr n /\
        (loading_fails now (Argparse.model args) (Argparse.output args) w e w'
         \/ transcription_fails now (Argparse.audio args) (Argparse.model args)
              (Argparse.output args) (Argparse.language args)
              (Some (Argparse.task args)) w e w')).
Proof.
  intros Hp. cbv zeta. rewrite (main_run _ _ _ _ Hp).
  destruct (Posix.stat w (Argparse.audio args)) as [e|n] eqn:Ha.
  { right. left. split; [done|]. by exists e. }
  rewrite run_of_body.
  destruct (transcribe_audio_body _ _ _ _ _ _ w) as [[r|e] wb] eqn:Hb.
  - pose proof Hb as Hb'.
    apply body_cases in Hb' as [(e' & _ & Heq)|[(e' & _ & Heq)|[(e' & _ & Heq)|
      [(e' & _ & Heq)|(res & w5 & Hs & -> & Heq)]]]]; try discriminate.
    injection Heq as ->. rewrite output_file_name_truthy. left.
    split; [done|]. exists n, res, w5. split; [done|]. split; [done|]. split; [done|].
    cbn [snd]. unfold read_file. change (Posix.stat (printed _ w5) ?x) with (Posix.stat w5 x).
    destruct Hs as (w1 & m & _ & _ & _ & Hw).
    by apply write_text_file_read in Hw.
  - destruct e as [cls msg| |code] eqn:Ee.
    + right. right. left. split; [done|]. by exists n, cls, msg, wb.
    + right. right. right. exists KeyboardInterrupt, n.
      split; [done|]. split; [done|]. split; [done|].
      by apply body_non_exception in Hb.
    + right. right. right. exists (SystemExit code), n.
      split; [done|]. split; [done|]. split; [done|].
      by apply body_non_exception in Hb.
Qed.

(** X8: The calls of one run of the tool to the engine: the model named on the
    command line is loaded at most once, and [model.transcribe] is called at
    most once, after the model was loaded, with the audio path of the
    command line; there is no call when the audio file is missing. *)
Theorem engine_call_protocol (argv : list string) (args : Argparse.Namespace)
    (now : datetime) (w : World) :
  Argparse.parse argv = Argparse.Parsed args ->
  let calls := calls_made w (snd (main argv now w)) in
  let load := CallLoadModel (Argparse.model args) in
  let call := CallTranscribe (Argparse.audio args)
                (build_options (Argparse.language args) (Some (Argparse.task args))) in
  (calls = [] \/ calls = [load] \/ calls = [load; call])
  /\ (forall e, Posix.stat w (Argparse.audio args) = inl e -> calls = [])
  /\ (calls = [load; call] ->
      exists w1 m,
        os_makedirs (dir_path (Argparse.output args) now) true w = (Ret tt, w1) /\
        whisper_load_model (Argparse.model args) (at_load (Argparse.model args) w1)
        = Ret m).
Proof.
  intros Hp. cbv zeta.
  assert (forall e, Posix.stat w (Argparse.audio args) = inl e ->
            calls_made w (snd (main argv now w)) = []) as Hmissing.
  { intros e Ha. rewrite (main_run _ _ _ _ Hp), Ha. cbn [snd].
    unfold calls_made. cbn [printed engine_log]. by rewrite drop_all. }
  split; [|split; [done|]].
  - destruct (Posix.stat w (Argparse.audio args)) as [e|n] eqn:Ha; [left; by eauto|].
    assert (snd (main argv now w)
            = snd (transcribe_audio now (Argparse.audio args) (Argparse.model args)
                     (Argparse.output args) (Argparse.language args)
                     (Some (Argparse.task args)) w)) as ->.
    { rewrite (main_run _ _ _ _ Hp), Ha.
      destruct (transcribe_audio _ _ _ _ _ _ w) as [[r|e] w']; [|done].
      by destruct (truthy r). }
    apply calls_of_run.
  - intros Hcalls.
    destruct (Posix.stat w (Argparse.audio args)) as [e|n] eqn:Ha.
    { rewrite (Hmissing e eq_refl) in Hcalls. discriminate. }
    assert (engine_log (snd (main argv now w))
            = engine_log (snd (transcribe_audio_body now (Argparse.audio args)
                                 (Argparse.model args) (Argparse.output args)
                                 (Argparse.language args)
                                 (Some (Argparse.task args)) w))) as Hlog.
    { rewrite (main_run _ _ _ _ Hp), Ha.
      destruct (run_keeps_body_world now (Argparse.audio args) (Argparse.model args)
                  (Argparse.output args) (Argparse.language args)
                  (Some (Argparse.task args)) w) as (_ & _ & <-).
      destruct (transcribe_audio _ _ _ _ _ _ w) as [[r|e] w']; [|done].
      by destruct (truthy r). }
    unfold calls_made in Hcalls. rewrite Hlog in Hcalls.
    destruct (transcribe_audio_body _ _ _ _ _ _ w) as [o wb] eqn:Hb. cbn [snd] in Hcalls.
    apply body_cases in Hb as [(e & Hm & _)|[(e & Hf & _)|[(e & Hf & _)|[(e & Hf & _)|Hs]]]].
    + apply os_makedirs_frame in Hm as (_ & _ & Hl). rewrite Hl, drop_all in Hcalls.
      discriminate.
    + destruct Hf as (w1 & Hm & _ & ->).
      apply os_makedirs_frame in Hm as (_ & _ & Hl).
      cbn in Hcalls. rewrite Hl, drop_app_length in Hcalls. discriminate.
    + destruct Hf as (w1 & m & Hm & Hl & _). eauto.
    + destruct Hf as (w1 & m & r & Hm & Hl & _). eauto.
    + destruct Hs as (r & w5 & (w1 & m & Hm & Hl & _) & _). eauto.
Qed.

End Outcomes.

(** ** The names of the output files *)

Lemma two_digit_order_all :
  List.forallb (fun a => List.forallb (two_digit_order_check a)
                           (List.map Z.of_nat (List.seq 0 100)))
    (List.map Z.of_nat (List.seq 0 100)) = true.
Proof. vm_compute. reflexivity. Qed.

Lemma below_100_listed (n : Z) :
  0 <= n < 100 -> In n (List.map Z.of_nat (List.seq 0 100)).
Proof.
  intros Hn. apply List.in_map_iff. exists (Z.to_nat n). split; [lia|].
  apply List.in_seq. lia.
Qed.

Lemma two_digit_order (a b : Z) :
  0 <= a < 100 -> 0 <= b < 100 ->
  match Ascii.compare (digit (a / 10)) (digit (b / 10)) with
  | Eq => Ascii.compare (digit (a mod 10)) (digit (b mod 10))
  | c => c
  end = (a ?= b).
Proof.
  intros Ha Hb. pose proof two_digit_order_all as Hall.
  rewrite List.forallb_forall in Hall.
  specialize (Hall a (below_100_listed a Ha)).
  rewrite List.forallb_forall in Hall.
  specialize (Hall b (below_100_listed b Hb)).
  unfold two_digit_order_check in Hall.
  destruct (match Ascii.compare (digit (a / 10)) (digit (b / 10)) with
            | Eq => Ascii.compare (digit (a mod 10)) (digit (b mod 10))
            | c => c
            end), (a ?= b); done.
Qed.

Lemma string_compare_refl (s : string) : String.compare s s = Eq.
Proof.
  induction s as [|a s IH]; [done|]. cbn [String.compare].
  unfold Ascii.compare. by rewrite N.compare_refl.
Qed.

Lemma string_compare_app (p s t : string) :
  String.compare (p +:+ s) (p +:+ t) = String.compare s t.
Proof.
  induction p as [|a p IH]; str_norm; [done|]. cbn [String.compare].
  unfold Ascii.compare. by rewrite N.compare_refl.
Qed.

Lemma string_compare_two_digits (a b : Z) (s t : string) :
  0 <= a < 100 -> 0 <= b < 100 ->
  String.compare (two_digits a +:+ s) (two_digits b +:+ t)
  = match a ?= b with
    | Eq => String.compare s t
    | c => c
    end.
Proof.
  intros Ha Hb. rewrite <- (two_digit_order a b Ha Hb).
  unfold two_digits. str_norm. cbn [String.compare].
  destruct (Ascii.compare (digit (a / 10)) (digit (b / 10))); [|done..].
  by destruct (Ascii.compare (digit (a mod 10)) (digit (b mod 10))).
Qed.

Lemma string_compare_slash (s t : string) :
  String.compare ("/" +:+ s) ("/" +:+ t) = String.compare s t.
Proof. apply string_compare_app. Qed.

Lemma lex_compare_eq (a b : list Z) :
  length a = length b -> (lex_compare a b = Eq <-> a = b).
Proof.
  revert b. induction a as [|x a IH]; intros [|y b] Hlen; try done.
  cbn [lex_compare]. injection Hlen as Hlen.
  destruct (x ?= y) eqn:E.
  - apply Z.compare_eq in E as ->. rewrite (IH b Hlen).
    split; [by intros -> | by intros [= ->]].
  - split; [done|]. intros [= -> _]. by rewrite Z.compare_refl in E.
  - split; [done|]. intros [= -> _]. by rewrite Z.compare_refl in E.
Qed.

(** X3: The output file names sort by time.  For two clock readings and one
    base directory the names compare, character by character, as the
    readings do field by field (year within the century first); so two runs
    write to the same file exactly when their readings fall in the same
    second of the same year of a century. *)
Theorem output_files_sort_by_time (base_dir : string) (t1 t2 : datetime) :
  datetime_ok t1 = true -> datetime_ok t2 = true ->
  String.compare (output_file_name base_dir t1) (output_file_name base_dir t2)
  = lex_compare (second_of_century t1) (second_of_century t2)
  /\ (output_file_name base_dir t1 = output_file_name base_dir t2
      <-> second_of_century t1 = second_of_century t2).
Proof.
  intros Hok1 Hok2.
  destruct (datetime_ok_ranges t1 Hok1) as (Hy1 & Hm1 & Hd1 & Hh1 & Hmi1 & Hs1).
  destruct (datetime_ok_ranges t2 Hok2) as (Hy2 & Hm2 & Hd2 & Hh2 & Hmi2 & Hs2).
  assert (String.compare (output_file_name base_dir t1) (output_file_name base_dir t2)
          = lex_compare (second_of_century t1) (second_of_century t2)) as Hcmp.
  { rewrite !output_file_name_form by done.
    unfold path_form, spec_stem. rewrite !str_app_assoc.
    rewrite !string_compare_app.
    rewrite string_compare_two_digits by done. rewrite string_compare_slash.
    rewrite string_compare_two_digits by done. rewrite string_compare_slash.
    rewrite string_compare_two_digits by done.
    rewrite string_compare_two_digits by done. rewrite string_compare_slash.
    rewrite string_compare_two_digits by done.
    rewrite string_compare_two_digits by done.
    rewrite string_compare_refl. reflexivity. }
  split; [done|]. rewrite <- lex_compare_eq by done. rewrite <- Hcmp.
  split; [intros ->; apply string_compare_refl | apply String.compare_eq_iff].
Qed.

(** ** Two runs in the same second *)

Section Collision.
Context `{Platform} `{Whisper}.

(** X4: Two runs in the same second collide.  When a run has written its
    transcript and a second run, started in the same second with the same
    base directory, succeeds too, both return the same file name, and the
    file then holds the transcript of the second run: the first one is
    overwritten. *)
Theorem same_second_overwrites (now1 now2 : datetime) (audio1 audio2 model1 model2
    output_base_dir : string) (language1 language2 task1 task2 : option string)
    (w w5 w6 : World) (result1 result2 : TranscribeResult) :
  same_second now1 now2 ->
  all_succeed now1 audio1 model1 output_base_dir language1 task1 w result1 w5 ->
  let file := output_file_name output_base_dir now1 in
  let w_a := printed ("Transcription saved to: " +:+ file) w5 in
  all_succeed now2 audio2 model2 output_base_dir language2 task2 w_a result2 w6 ->
  let w_b := printed ("Transcription saved to: " +:+ file) w6 in
  transcribe_audio now1 audio1 model1 output_base_dir language1 task1 w
  = (Ret (Some file), w_a)
  /\ transcribe_audio now2 audio2 model2 output_base_dir language2 task2 w_a
     = (Ret (Some file), w_b)
  /\ read_file w_a file = Some (text result1)
  /\ read_file w_b file = Some (text result2).
Proof.
  intros Hsame Hs1 file w_a Hs2 w_b.
  destruct (same_second_names _ _ output_base_dir Hsame) as [Hd Hst].
  assert (output_file_name output_base_dir now2 = file) as Hfile.
  { unfold file, output_file_name. by rewrite Hd, Hst. }
  pose proof (body_all_succeed _ _ _ _ _ _ _ _ _ Hs1) as Hb1.
  pose proof (body_all_succeed _ _ _ _ _ _ _ _ _ Hs2) as Hb2.
  rewrite Hfile in Hb2.
  split; [by rewrite run_of_body, Hb1|]. split; [by rewrite run_of_body, Hb2|].
  destruct Hs1 as (w1 & m1 & _ & _ & _ & Hw1).
  destruct Hs2 as (w2 & m2 & _ & _ & _ & Hw2). rewrite Hfile in Hw2.
  split; [exact (write_text_file_read _ _ _ _ Hw1) | exact (write_text_file_read _ _ _ _ Hw2)].
Qed.

End Collision.

(** ** Command lines that are refused *)




(** ** Where the audio path comes from *)





(** ** What the user sees *)

Section Console.
Context `{Platform} `{Whisper}.
Variables (now : datetime) (audio_path model_name output_base_dir : string)
          (language task : option string).

Local Abbreviation run :=
  (transcribe_audio now audio_path model_name output_base_dir language task).
Local Abbreviation out := (output_file_name output_base_dir now).
Local Abbreviation loading := ("Loading model: " +:+ model_name).
Local Abbreviation transcribing := ("Transcribing: " +:+ audio_path).

Lemma run_console_cases (w : World) :
  exists lines,
    console (snd (run w)) = (console w ++ lines)%list
    /\ ((fst (run w) = Ret (Some out)
         /\ lines = [loading; transcribing; "Transcription saved to: " +:+ out])
        \/ (fst (run w) = Ret None
            /\ exists msg,
                 let report := "Error transcribing audio: " +:+ msg in
                 lines = [report] \/ lines = [loading; report]
                 \/ lines = [loading; transcribing; report])
        \/ (exists e, fst (run w) = Raise e /\ is_Exception e = false
                      /\ (lines = [loading] \/ lines = [loading; transcribing]))).
Proof.
  rewrite run_of_body.
  destruct (transcribe_audio_body now audio_path model_name output_base_dir language
              task w) as [o wb] eqn:Hb.
  apply body_cases in Hb as [(e & Hm & ->)|[(e & Hf & ->)|[(e & Hf & ->)|
    [(e & Hf & ->)|(r & w5 & Hs & -> & ->)]]]].
  - pose proof (os_makedirs_raises _ _ _ _ _ Hm) as [errno ->].
    apply os_makedirs_frame in Hm as (_ & Hc & _).
    eexists. split.
    + cbn [os_error is_Exception snd printed console]. by rewrite Hc.
    + right. left. split; [done|]. eexists. by left.
  - destruct Hf as (w1 & Hm & _ & ->).
    apply os_makedirs_frame in Hm as (_ & Hc & _).
    destruct e as [cls msg| |code]; eexists; (split;
      [cbn [is_Exception snd printed console log_call at_load]; rewrite Hc;
       rewrite <- ?app_assoc; cbn [app]; reflexivity|]).
    + right. left. split; [done|]. exists msg. right. by left.
    + right. right. eexists. split; [done|]. split; [done|]. by left.
    + right. right. eexists. split; [done|]. split; [done|]. by left.
  - destruct Hf as (w1 & m & Hm & _ & _ & ->).
    apply os_makedirs_frame in Hm as (_ & Hc & _).
    destruct e as [cls msg| |code]; eexists; (split;
      [cbn [is_Exception snd printed console log_call at_load at_transcribe at_write];
       rewrite Hc; rewrite <- ?app_assoc; cbn [app]; reflexivity|]).
    + right. left. split; [done|]. exists msg. right. by right.
    + right. right. eexists. split; [done|]. split; [done|]. by right.
    + right. right. eexists. split; [done|]. split; [done|]. by right.
  - destruct Hf as (w1 & m & r & Hm & _ & _ & Hw).
    pose proof (write_text_file_raises _ _ _ _ _ Hw) as [errno ->].
    apply os_makedirs_frame in Hm as (_ & Hc & _).
    apply write_text_file_frame in Hw as (_ & Hcw & _).
    eexists. split.
    + cbn [os_error is_Exception snd printed console]. rewrite Hcw.
      cbn [console log_call at_load at_transcribe at_write printed]. rewrite Hc.
      rewrite <- ?app_assoc. cbn [app]. reflexivity.
    + right. left. split; [done|]. eexists. right. by right.
  - destruct Hs as (w1 & m & Hm & _ & _ & Hw).
    apply os_makedirs_frame in Hm as (_ & Hc & _).
    apply write_text_file_frame in Hw as (_ & Hcw & _).
    eexists. split.
    + cbn [snd printed console]. rewrite Hcw.
      cbn [console log_call at_load at_transcribe at_write printed]. rewrite Hc.
      rewrite <- ?app_assoc. cbn [app]. reflexivity.
    + by left.
Qed.

(** X6: The console of one call of [transcribe_audio].  The call only adds
    lines, at most three: the two progress lines in their order, as far as
    the run got, then one last line.  The last line is the one with the file
    name exactly when a file name is returned, and a line reporting the error
    exactly when [None] is returned; a fault that is not an [Exception]
    leaves the progress lines alone. *)
Theorem console_of_transcribe_audio (w : World) :
  let o := fst (run w) in
  let lines := drop (length (console w)) (console (snd (run w))) in
  console (snd (run w)) = (console w ++ lines)%list
  /\ ((o = Ret (Some out)
       /\ lines = [loading; transcribing; "Transcription saved to: " +:+ out])
      \/ (o = Ret None
          /\ exists msg,
               let report := "Error transcribing audio: " +:+ msg in
               lines = [report] \/ lines = [loading; report]
               \/ lines = [loading; transcribing; report])
      \/ (exists e, o = Raise e /\ is_Exception e = false
                    /\ (lines = [loading] \/ lines = [loading; transcribing]))).
Proof.
  cbv zeta. destruct (run_console_cases w) as (lines & Hc & Hcases).
  assert (drop (length (console w)) (console (snd (run w))) = lines) as Hd
    by (rewrite Hc; apply drop_app_length).
  rewrite Hd. by split.
Qed.

End Console.

(** ** The directories on the way *)

Lemma split_char_cons (c : ascii) (s : string) :
  exists first others, PyStr.split_char c s = first :: others.
Proof.
  induction s as [|a s (f & o & IH)]; [by eexists _, _|].
  cbn [PyStr.split_char]. destruct (Ascii.eqb a c); [by eexists _, _|].
  rewrite IH. by eexists _, _.
Qed.

(** Splitting at a separator: the parts before it, then the parts after. *)
Lemma split_char_app (c : ascii) (s t : string) :
  PyStr.split_char c (s +:+ String c t)
  = (PyStr.split_char c s ++ PyStr.split_char c t)%list.
Proof.
  induction s as [|a s IH]; str_norm.
  - cbn [PyStr.split_char]. by rewrite Ascii.eqb_refl.
  - cbn [PyStr.split_char]. destruct (Ascii.eqb a c); [by rewrite IH|].
    rewrite IH. by destruct (split_char_cons c s) as (f & o & ->).
Qed.

(** Resolution composes. *)
Lemma walk_app (t : gmap (list string) Node) (l1 l2 cur : list string) :
  Posix.walk t cur (l1 ++ l2)
  = match Posix.walk t cur l1 with
    | inr q1 => Posix.walk t q1 l2
    | inl e => inl e
    end.
Proof.
  revert cur. induction l1 as [|c l1 IH]; intros cur; [done|].
  cbn [app Posix.walk]. destruct (Posix.node_at t cur) as [[|?]|]; [apply IH|done..].
Qed.

Lemma startswith_char_app (c : ascii) (s t : string) :
  s <> "" -> PyStr.startswith_char c (s +:+ t) = PyStr.startswith_char c s.
Proof. intros Hs. destruct s; [done|]. by str_norm. Qed.

(** A directory has a directory above it. *)
Lemma isdir_parent (w : World) (name rest : string) :
  name <> "" -> isdir w (name +:+ String "/" rest) = true -> isdir w name = true.
Proof.
  intros Hname Hd. apply isdir_true in Hd as (_ & q & Hw & Hq).
  apply isdir_true. split; [by destruct name|].
  unfold Posix.start, Posix.components in *.
  rewrite startswith_char_app in Hw by done.
  rewrite split_char_app, walk_app in Hw.
  destruct (Posix.walk (fs w) _ (PyStr.split_char "/" name)) as [e|q1]; [done|].
  exists q1. split; [done|].
  destruct (split_char_cons "/" rest) as (f & o & Hsplit). rewrite Hsplit in Hw.
  cbn [Posix.walk] in Hw. by destruct (Posix.node_at (fs w) q1) as [[|?]|].
Qed.

(** X2: The Path Builder makes the whole chain of directories: when it has
    returned, the directory of the year and, under it, the directory of the
    month exist as well as the directory it returns, and so does the base
    directory when it is given without a final slash. *)
Theorem path_builder_creates_ancestors `{Platform} (now : datetime) (base_dir : string)
    (w w' : World) (r : string * string) :
  datetime_ok now = true ->
  create_datetime_directory now base_dir w = (Ret r, w') ->
  let year_dir := base_dir +:+ separator_after base_dir +:+ two_digits (year now mod 100) in
  let month_dir := year_dir +:+ "/" +:+ two_digits (month now) in
  fst r = month_dir +:+ "/" +:+ two_digits (day now) +:+ two_digits (hour now)
  /\ isdir w' (fst r) = true /\ isdir w' month_dir = true /\ isdir w' year_dir = true
  /\ (PyStr.falsy base_dir = false -> PyStr.endswith_char "/" base_dir = false ->
      isdir w' base_dir = true).
Proof.
  intros Hok Hrun year_dir month_dir.
  apply create_datetime_directory_returns in Hrun as [Hm ->]. cbn [fst].
  pose proof (os_makedirs_isdir _ _ _ Hm) as Hd.
  assert (dir_path base_dir now
          = month_dir +:+ "/" +:+ two_digits (day now) +:+ two_digits (hour now)) as Hform.
  { rewrite (dir_path_form _ _ Hok). unfold month_dir, year_dir.
    by rewrite !str_app_assoc. }
  split; [done|]. split; [done|].
  assert (isdir w' month_dir = true) as Hmonth.
  { rewrite Hform in Hd. apply isdir_parent in Hd; [done|].
    unfold month_dir. intros E. apply (f_equal PyStr.falsy) in E.
    by rewrite falsy_app_r in E. }
  split; [done|].
  assert (isdir w' year_dir = true) as Hyear.
  { unfold month_dir in Hmonth. apply isdir_parent in Hmonth; [done|].
    unfold year_dir. intros E. apply (f_equal PyStr.falsy) in E.
    rewrite <- str_app_assoc in E. by rewrite falsy_app_r in E. }
  split; [done|]. intros Hne Hsl.
  unfold year_dir, separator_after in Hyear. rewrite Hne, Hsl in Hyear. cbn [orb] in Hyear.
  apply isdir_parent in Hyear; [done|]. by destruct base_dir.
Qed.

(** ** The further properties at work on the sample world *)

Lemma path_builder_only_adds_directories_witness :
  let w' := snd (@create_datetime_directory permissive sample_time "output"
                   sample_world) in
  read_file sample_world "sample.wav" = Some "RIFF" /\
  read_file w' "sample.wav" = Some "RIFF".
Proof.
  cbv zeta.
  assert (read_file sample_world "sample.wav" = Some "RIFF") as Hr
    by (vm_compute; reflexivity).
  split; [exact Hr|].
  exact (proj1 (proj2 (proj2 (@path_builder_only_adds_directories permissive
                                sample_time "output" sample_world)))
           "sample.wav" "RIFF" Hr).
Defined.

Lemma transcribe_audio_changes_one_file_witness :
  let w' := snd (@transcribe_audio permissive (fixed_engine "hello") sample_time
                   "sample.wav" "tiny" "output" None (Some "transcribe")
                   sample_world) in
  Posix.node_at (fs sample_world) ["work"] = Some Dir /\
  Posix.node_at (fs w') ["work"] = Some Dir.
Proof.
  cbv zeta.
  assert (Posix.node_at (fs sample_world) ["work"] = Some Dir) as Hd
    by (vm_compute; reflexivity).
  split; [exact Hd|].
  exact (proj1 (proj2 (@transcribe_audio_changes_one_file permissive
                         (fixed_engine "hello") sample_time "sample.wav" "tiny"
                         "output" None (Some "transcribe") sample_world))
           ["work"] Hd).
Defined.

Lemma main_outcomes_witness :
  Argparse.parse ["sample.wav"] = Argparse.Parsed (default_namespace "sample.wav") /\
  fst (@main permissive interrupted_engine ["sample.wav"] sample_time sample_world)
  = Raise KeyboardInterrupt.
Proof.
  assert (Argparse.parse ["sample.wav"]
          = Argparse.Parsed (default_namespace "sample.wav")) as Hp
    by (vm_compute; reflexivity).
  split; [exact Hp|].
  destruct (@main_outcomes permissive interrupted_engine ["sample.wav"]
              (default_namespace "sample.wav") sample_time sample_world Hp)
    as [[Ho _]|[[Ho _]|[[Ho _]|(e & n & Ho & _)]]];
    vm_compute in Ho; try discriminate Ho.
  vm_compute. reflexivity.
Defined.

Lemma engine_call_protocol_witness :
  calls_made sample_world
    (snd (@main permissive (fixed_engine "hello") ["nope.wav"] sample_time sample_world))
  = [].
Proof.
  exact (proj1 (proj2 (@engine_call_protocol permissive (fixed_engine "hello")
                         ["nope.wav"] (default_namespace "nope.wav") sample_time
                         sample_world ltac:(vm_compute; reflexivity)))
           ENOENT ltac:(vm_compute; reflexivity)).
Defined.

Lemma output_files_sort_by_time_witness :
  let later := {| year := 2024; month := 3; day := 7; hour := 14; minute := 6;
                  second := 0; microsecond := 0 |} in
  String.compare (output_file_name "output" sample_time) (output_file_name "output" later)
  = Lt.
Proof.
  cbv zeta.
  rewrite (proj1 (output_files_sort_by_time "output" sample_time
                    {| year := 2024; month := 3; day := 7; hour := 14; minute := 6;
                       second := 0; microsecond := 0 |} eq_refl eq_refl)).
  reflexivity.
Defined.

Lemma sample_first_run :
  exists w5,
    @all_succeed permissive echo_engine sample_time "sample.wav" "tiny"
      "output" None (Some "transcribe") sample_world
      {| text := "transcript of sample.wav" |} w5.
Proof.
  eexists. eexists _, _.
  split; [vm_compute; reflexivity|]. split; [reflexivity|]. split; [reflexivity|].
  vm_compute. reflexivity.
Defined.

Lemma sample_second_run (w5 : World) :
  @all_succeed permissive echo_engine sample_time "sample.wav" "tiny"
    "output" None (Some "transcribe") sample_world
    {| text := "transcript of sample.wav" |} w5 ->
  exists w6,
    @all_succeed permissive echo_engine sample_time "other.wav" "tiny"
      "output" None (Some "transcribe")
      (printed ("Transcription saved to: " +:+ output_file_name "output" sample_time) w5)
      {| text := "transcript of other.wav" |} w6.
Proof.
  intros (w1 & m & Hm & Hl & Ht & Hw).
  vm_compute in Hm. injection Hm as <-.
  vm_compute in Hw. injection Hw as <-.
  eexists. eexists _, _.
  split; [vm_compute; reflexivity|]. split; [reflexivity|]. split; [reflexivity|].
  vm_compute. reflexivity.
Defined.

Lemma same_second_overwrites_witness :
  exists w_b,
    read_file w_b "output/24/03/0714/0509.txt" = Some "transcript of other.wav".
Proof.
  destruct sample_first_run as [w5 Hs1].
  destruct (sample_second_run w5 Hs1) as [w6 Hs2].
  eexists.
  exact (proj2 (proj2 (proj2 (@same_second_overwrites permissive echo_engine
                                sample_time sample_time "sample.wav" "other.wav"
                                "tiny" "tiny" "output" None None (Some "transcribe")
                                (Some "transcribe") sample_world w5 w6 _ _
                                ltac:(repeat split) Hs1 Hs2)))).
Defined.



Lemma path_builder_creates_ancestors_witness :
  let w' := snd (@create_datetime_directory permissive sample_time "output"
                   sample_world) in
  isdir w' "output/24/03/0714" = true /\ isdir w' "output/24/03" = true /\
  isdir w' "output/24" = true /\ isdir w' "output" = true.
Proof.
  cbv zeta.
  destruct (@path_builder_creates_ancestors permissive sample_time "output"
              sample_world
              (snd (@create_datetime_directory permissive sample_time "output"
                      sample_world))
              ("output/24/03/0714", "0509") eq_refl ltac:(vm_compute; reflexivity))
    as (_ & Hd & Hm & Hy & Hb).
  split; [exact Hd|]. split; [exact Hm|]. split; [exact Hy|].
  exact (Hb eq_refl eq_refl).
Defined.
